(** * The Cloudant agent check (cloudant.py)

    A shallow embedding of [CloudantCheck]: the dedup ledger
    ([self.last_timestamps]), the response mapper ([record_data]) and the
    orchestration of one tick ([check], [check_connection],
    [get_status_code_data]), followed by the properties of the check.

    Conventions of the embedding.
    - Timestamps and datapoint values are Python integers, modelled by [Z];
      a datapoint value may also be [None] (JSON null), modelled by [option].
      The check never computes with a value: it tests it against [None],
      formats it into a log line and hands it to [self.gauge].
    - A stats response is taken at the shape the Cloudant API documents,
      [{end, target_responses: [{target, datapoints: [[value, epoch]]}]}];
      the one other payload that is modelled is [None].
    - What the check hands to the agent ([self.gauge], [self.service_check],
      [self.warning], [self.log]) is recorded as a list of events, oldest
      first. Tag lists are recorded with the content they have at the call.
    - Exceptions are values of [exn]; a method that can raise returns an
      [outcome]. *)

From Stdlib Require Import Ascii.
From stdpp Require Import gmap strings list pretty sorting.

Local Open Scope Z_scope.

(** ** Python built-ins used by the check *)

Module Py.

(** [sep.join(parts)] *)
Fixpoint join (sep : string) (parts : list string) : string :=
  match parts with
  | [] => ""
  | p :: rest =>
      match rest with
      | [] => p
      | _ :: _ => p +:+ sep +:+ join sep rest
      end
  end.

(** [s.split(sep, 1)] for a separator of one character: the string is cut
    once, at the first occurrence of the separator if there is one. *)
Fixpoint split1 (sep : Ascii.ascii) (s : string) : list string :=
  match s with
  | EmptyString => [EmptyString]
  | String c rest =>
      if Ascii.eqb c sep then [EmptyString; rest]
      else match split1 sep rest with
           | [] => [String c EmptyString]
           | hd :: tl => String c hd :: tl
           end
  end.

(** [parts[-1]]; [None] stands for the IndexError of an empty list. *)
Definition last_item (parts : list string) : option string := last parts.

(** The truth value of an optional integer: [None] and [0] are false. *)
Definition truthy (v : option Z) : bool :=
  match v with
  | None => false
  | Some n => negb (n =? 0)
  end.

(** [tags or []] *)
Definition or_empty (tags : option (list string)) : list string :=
  match tags with
  | Some (t :: ts) => t :: ts
  | Some [] => []
  | None => []
  end.

End Py.

(** ** Data model *)

(** One entry of [target_responses]. *)
Record TargetResponse := {
  target : string;
  datapoints : list (option Z * Z)
}.

(** The body of the [rate/status_code] endpoint. The field [end] is spelled
    [end_], [end] being a keyword. *)
Record StatsResponse := {
  end_ : Z;
  target_responses : list TargetResponse
}.

(** [AgentCheck.OK] and [AgentCheck.CRITICAL]. *)
Inductive Status := OK | CRITICAL.

(** What the check submits to the agent. *)
Inductive Event :=
| Gauge (name : string) (value : Z) (tags : list string) (timestamp : Z)
| ServiceCheck (name : string) (status : Status) (tags : list string)
    (message : string)
| Warning (message : string)
| LogInfo (message : string)
| LogDebug (message : string).

Definition is_gauge (ev : Event) : bool :=
  match ev with Gauge _ _ _ _ => true | _ => false end.

Definition is_service_check (ev : Event) : bool :=
  match ev with ServiceCheck _ _ _ _ => true | _ => false end.

Definition is_warning (ev : Event) : bool :=
  match ev with Warning _ => true | _ => false end.

(** The gauges, service checks and warnings among the events of a call. *)
Definition gauges (evs : list Event) : list Event := filter is_gauge evs.
Definition service_checks (evs : list Event) : list Event :=
  filter is_service_check evs.
Definition warnings (evs : list Event) : list Event := filter is_warning evs.

(** Exceptions. [RequestsTimeout] and [RequestsHTTPError] are
    [requests.exceptions.Timeout] and [requests.exceptions.HTTPError];
    [OtherError] is any other subclass of [Exception] that the HTTP request
    may raise. Each carries the text the check reads from it. *)
Inductive exn :=
| Exception (msg : string)
| KeyError (key : string)
| TypeError (msg : string)
| AttributeError (msg : string)
| RequestsTimeout (detail : string)
| RequestsHTTPError (message : string)
| OtherError (detail : string).

(** [str(e)]; the keys the check looks up are plain words, whose [repr] is
    the word between single quotes. *)
Definition exn_str (e : exn) : string :=
  match e with
  | Exception msg => msg
  | KeyError key => "'" +:+ key +:+ "'"
  | TypeError msg => msg
  | AttributeError msg => msg
  | RequestsTimeout detail => detail
  | RequestsHTTPError message => message
  | OtherError detail => detail
  end.

Inductive outcome (A : Type) :=
| Returned (a : A)
| Raised (e : exn).
Arguments Returned {A} a.
Arguments Raised {A} e.

(** ** Dedup ledger *)

Module Ledger.

(** [_should_record_data]: [not last_ts or last_ts < epoch], where
    [last_ts] is [None] for a tag the ledger does not hold. The second
    operand is evaluated only when [last_ts] is an integer other than 0;
    for [None] Python 2 would find it true as well. *)
Definition _should_record_data (last_timestamps : gmap string Z)
    (tag : string) (epoch : Z) : bool :=
  let last_ts := last_timestamps !! tag in
  negb (Py.truthy last_ts)
  || match last_ts with
     | Some ts => ts <? epoch
     | None => true
     end.

End Ledger.
Export Ledger.

(** ** Response mapper *)

Module Mapper.

(** The inner loop of [record_data], over the datapoints of one target. *)
Fixpoint record_datapoints (metric_name : string)
    (tags : option (list string)) (last_timestamps : gmap string Z)
    (datapoints : list (option Z * Z)) : gmap string Z * list Event :=
  match datapoints with
  | [] => (last_timestamps, [])
  | (value, epoch) :: rest =>
      match value with
      | Some v =>
          if _should_record_data last_timestamps metric_name epoch then
            let metric_tags := Py.or_empty tags in
            let '(last_timestamps', evs) :=
              record_datapoints metric_name tags
                (<[metric_name := epoch]> last_timestamps) rest in
            (last_timestamps',
             LogInfo ("Recording data: " +:+ metric_name +:+ ", "
                      +:+ pretty v)
             :: Gauge metric_name v metric_tags epoch :: evs)
          else record_datapoints metric_name tags last_timestamps rest
      | None => record_datapoints metric_name tags last_timestamps rest
      end
  end.

(** ['.'.join([prefix, stat_name_fn(target)])]; the transform is taken to
    be a total function. *)
Definition metric_name_of (prefix : string)
    (stat_name_fn : string → string) (response : TargetResponse) : string :=
  Py.join "." [prefix; stat_name_fn (target response)].

(** The outer loop of [record_data], over [data['target_responses']]. *)
Fixpoint record_responses (prefix : string)
    (stat_name_fn : string → string) (tags : option (list string))
    (last_timestamps : gmap string Z) (responses : list TargetResponse)
    : gmap string Z * list Event :=
  match responses with
  | [] => (last_timestamps, [])
  | response :: rest =>
      let metric_name := metric_name_of prefix stat_name_fn response in
      let '(last_timestamps', evs) :=
        record_datapoints metric_name tags last_timestamps
          (datapoints response) in
      let '(last_timestamps'', evs') :=
        record_responses prefix stat_name_fn tags last_timestamps' rest in
      (last_timestamps'', evs ++ evs')
  end.

Definition prefix_of (endpoint_name : string) : string :=
  Py.join "." ["cloudant"; endpoint_name].

(** [record_data(data, endpoint_name, stat_name_fn, tags)], run on the
    ledger [last_timestamps]: the outcome, the ledger afterwards and the
    events submitted. [data] is [None] for the Python [None]. *)
Definition record_data (data : option StatsResponse)
    (endpoint_name : string) (stat_name_fn : string → string)
    (tags : option (list string)) (last_timestamps : gmap string Z)
    : outcome unit * gmap string Z * list Event :=
  match data with
  | None =>
      (Raised (TypeError "'NoneType' object has no attribute '__getitem__'"),
       last_timestamps, [])
  | Some data =>
      let end_epoch := end_ data in
      let prefix := prefix_of endpoint_name in
      if negb (_should_record_data last_timestamps prefix end_epoch) then
        (Returned (), last_timestamps,
         [LogInfo ("Skipping old data: " +:+ prefix)])
      else
        let '(last_timestamps', evs) :=
          record_responses prefix stat_name_fn tags last_timestamps
            (target_responses data) in
        (Returned (), last_timestamps', evs)
  end.

(** [lambda target: target.split(' ', 1)[-1]], the transform that
    [get_status_code_data] passes. [split] never returns an empty list,
    so the index [-1] is always in range. *)
Definition status_code_stat_name (target : string) : string :=
  default target (Py.last_item (Py.split1 " "%char target)).

End Mapper.
Export Mapper.

(** ** The object store and the instance configuration *)

(** A tag list is a Python list object: the instance's [tags] entry and the
    local variable [tags] of [check] may name the same object, so lists live
    in a store and are named by their location. *)
Definition loc := positive.

(** A value of the instance mapping: a string, an integer or a list. *)
Inductive pyval :=
| PStr (s : string)
| PInt (n : Z)
| PList (l : loc).

(** What a tick reads and writes: [self.last_timestamps] and the store of
    list objects (a location the store does not hold reads as the empty
    list). *)
Record World := {
  last_timestamps : gmap string Z;
  heap : gmap loc (list string)
}.

(** [CloudantCheck.__init__]: the ledger starts empty. *)
Definition __init__ (heap : gmap loc (list string)) : World :=
  {| last_timestamps := ∅; heap := heap |}.

(** Computations of the check: they run in a world and yield an outcome, the
    world afterwards and the events submitted on the way. *)
Definition M (A : Type) : Type := World → outcome A * World * list Event.

Definition ret {A} (a : A) : M A := λ w, (Returned a, w, []).

Definition raise {A} (e : exn) : M A := λ w, (Raised e, w, []).

Definition bind {A B} (c : M A) (k : A → M B) : M B := λ w,
  match c w with
  | (Returned a, w', evs) =>
      let '(r, w'', evs') := k a w' in (r, w'', evs ++ evs')
  | (Raised e, w', evs) => (Raised e, w', evs)
  end.

Notation "'let*' x ':=' c 'in' k" := (bind c (λ x, k))
  (at level 10, x name, c at level 100, k at level 200, only parsing).
Notation "c ';;;' k" := (bind c (λ _, k))
  (at level 100, k at level 200, right associativity, only parsing).

(** [try: c / except Exception as e: handler(e) / else: orelse(result)]:
    the handler covers [c] alone. *)
Definition try_except_else {A B} (c : M A) (handler : exn → M B)
    (orelse : A → M B) : M B := λ w,
  match c w with
  | (Returned a, w', evs) =>
      let '(r, w'', evs') := orelse a w' in (r, w'', evs ++ evs')
  | (Raised e, w', evs) =>
      let '(r, w'', evs') := handler e w' in (r, w'', evs ++ evs')
  end.

Definition emit (ev : Event) : M unit := λ w, (Returned (), w, [ev]).

Definition lift {A} (o : outcome A) : M A := λ w, (o, w, []).

(** A method of the mapper, run on [self.last_timestamps]. *)
Definition on_ledger {A}
    (f : gmap string Z → outcome A * gmap string Z * list Event) : M A := λ w,
  let '(r, lt, evs) := f (last_timestamps w) in
  (r, {| last_timestamps := lt; heap := heap w |}, evs).

(** [instance[key]] *)
Definition item (instance : gmap string pyval) (key : string) : M pyval :=
  match instance !! key with
  | Some v => ret v
  | None => raise (KeyError key)
  end.

(** The list object at a location. *)
Definition read_list (l : loc) : M (list string) := λ w,
  (Returned (heap w !!! l), w, []).

(** A new list object, as the literal [[]] makes one. *)
Definition new_list (content : list string) : M loc := λ w,
  let l := fresh (dom (heap w)) in
  (Returned l,
   {| last_timestamps := last_timestamps w;
      heap := <[l := content]> (heap w) |}, []).

(** [v.append]: the bound method of a list object, AttributeError on
    anything else. *)
Definition append_of (v : pyval) : M loc :=
  match v with
  | PList l => ret l
  | PStr _ => raise (AttributeError "'str' object has no attribute 'append'")
  | PInt _ => raise (AttributeError "'int' object has no attribute 'append'")
  end.

(** [l.append(x)]: the list object grows in place. *)
Definition list_append (l : loc) (x : string) : M unit := λ w,
  (Returned (),
   {| last_timestamps := last_timestamps w;
      heap := <[l := (heap w !!! l) ++ [x]]> (heap w) |}, []).

(** ** The check *)

Section Collaborators.

(** Python's [repr] of a list of strings, which [format] prints when a
    configuration value that goes into a URL or a tag is a list. *)
Variable repr_list : list string → string.

(** The HTTP request of [_get_stats], from [headers(self.agentConfig)]
    and [int(timeout)] through [requests.get(url, auth=auth, headers=...,
    timeout=...)] and [r.raise_for_status()] to [r.json()]: given the URL,
    the credentials and the configured timeout it returns the parsed body
    or raises. *)
Variable requests_get :
  string → pyval * pyval → pyval → outcome (option StatsResponse).

Definition SERVICE_CHECK_NAME : string := "cloudant.can_connect".
Definition TIMEOUT : Z := 5.

(** [URL_TEMPLATE], as a function of the three fields it has. *)
Definition URL_TEMPLATE (username endpoint cluster : string) : string :=
  "https://" +:+ username +:+ ".cloudant.com/_api/v2/monitoring/"
  +:+ endpoint +:+ "?cluster=" +:+ cluster.

(** [str(v)], in a store [h]. *)
Definition str_of (h : gmap loc (list string)) (v : pyval) : string :=
  match v with
  | PStr s => s
  | PInt n => pretty n
  | PList l => repr_list (h !!! l)
  end.

(** ['{}'.format(v)] *)
Definition format (v : pyval) : M string := λ w,
  (Returned (str_of (heap w) v), w, []).

Fixpoint require_keys (keys : list string) (instance : gmap string pyval)
    : outcome unit :=
  match keys with
  | [] => Returned ()
  | key :: rest =>
      match instance !! key with
      | None => Raised (Exception ("A " +:+ key +:+ " must be specified"))
      | Some _ => require_keys rest instance
      end
  end.

Definition _validate_instance (instance : gmap string pyval) : outcome unit :=
  require_keys ["cluster"; "username"; "password"] instance.

(** [URL_TEMPLATE.format(endpoint=endpoint, **instance)]: a key
    [endpoint] of the instance clashes with the keyword argument; the
    fields are filled from left to right. *)
Definition _build_url (endpoint : string) (instance : gmap string pyval)
    : M string :=
  match instance !! "endpoint" with
  | Some _ =>
      raise (TypeError
        "format() got multiple values for keyword argument 'endpoint'")
  | None =>
      let* username := item instance "username" in
      let* username := format username in
      let* cluster := item instance "cluster" in
      let* cluster := format cluster in
      ret (URL_TEMPLATE username endpoint cluster)
  end.

Definition _get_stats (url : string) (instance : gmap string pyval)
    : M (option StatsResponse) :=
  emit (LogDebug ("Fetching Cloudant stats at url: " +:+ url)) ;;;
  let* username := item instance "username" in
  let* password := item instance "password" in
  let auth := (username, password) in
  lift (requests_get url auth (default (PInt TIMEOUT) (instance !! "timeout"))).

(** [self.service_check(SERVICE_CHECK_NAME, status, tags=tags,
    message=message)] with the list object [tags]. *)
Definition service_check (status : Status) (tags : loc) (message : string)
    : M unit :=
  let* tags := read_list tags in
  emit (ServiceCheck SERVICE_CHECK_NAME status tags message).

Definition check_connection (instance : gmap string pyval) (tags : loc)
    : M unit :=
  let* url := _build_url "uptime" instance in
  try_except_else (_get_stats url instance)
    (λ e,
      match e with
      | RequestsTimeout _ =>
          service_check CRITICAL tags
            ("Request timeout: " +:+ url +:+ ", " +:+ exn_str e) ;;;
          raise e
      | RequestsHTTPError message =>
          service_check CRITICAL tags message ;;;
          raise e
      | _ =>
          service_check CRITICAL tags (exn_str e) ;;;
          raise e
      end)
    (λ _,
      service_check OK tags
        ("Connection to " +:+ url +:+ " was successful")).

Definition get_status_code_data (instance : gmap string pyval) (tags : loc)
    : M unit :=
  let endpoint := "rate/status_code" in
  let* url := _build_url endpoint instance in
  let* cluster := item instance "cluster" in
  let* cluster := format cluster in
  let service_check_tags := ["cluster:" +:+ cluster] in
  try_except_else (_get_stats url instance)
    (λ e,
      match e with
      | RequestsHTTPError _ =>
          emit (Warning ("Error reading data from URL: " +:+ url))
      | _ => raise e
      end)
    (λ data,
      match data with
      | None => emit (Warning ("No stats could be retrieved from " +:+ url))
      | Some _ => ret ()
      end ;;;
      let* tags := read_list tags in
      on_ledger
        (record_data data "status_code" status_code_stat_name (Some tags))).

Definition check (instance : gmap string pyval) : M unit :=
  lift (_validate_instance instance) ;;;
  let* tags :=
    match instance !! "tags" with
    | Some v => ret v
    | None => let* l := new_list [] in ret (PList l)
    end in
  let* tags := append_of tags in
  let* cluster := item instance "cluster" in
  let* cluster := format cluster in
  list_append tags ("cluster:" +:+ cluster) ;;;
  check_connection instance tags ;;;
  get_status_code_data instance tags.

End Collaborators.

(** ** Runs of the check, and the notions its properties are stated with *)

(** One call of [record_data] on a check object: the arguments it is given. *)
Record Call := {
  call_data : option StatsResponse;
  call_stat_name_fn : string → string;
  call_tags : option (list string)
}.

(** Successive calls of [record_data] for one endpoint on the same check
    object; a call that raises leaves the ledger as it found it. *)
Fixpoint run_calls (endpoint_name : string) (calls : list Call)
    (last_timestamps : gmap string Z) : gmap string Z :=
  match calls with
  | [] => last_timestamps
  | c :: rest =>
      run_calls endpoint_name rest
        (record_data (call_data c) endpoint_name (call_stat_name_fn c)
           (call_tags c) last_timestamps).1.2
  end.

(** One tick of the scheduler: the instance it passes to [check] and the
    answers of the service during the tick. *)
Record Tick := {
  tick_instance : gmap string pyval;
  tick_requests_get :
    string → pyval * pyval → pyval → outcome (option StatsResponse)
}.

(** Successive ticks on one check object; a tick that raises leaves the
    world as it was when the exception occurred. *)
Fixpoint run_ticks (repr_list : list string → string) (ticks : list Tick)
    (w : World) : World :=
  match ticks with
  | [] => w
  | t :: rest =>
      run_ticks repr_list rest
        (check repr_list (tick_requests_get t) (tick_instance t) w).1.2
  end.

(** Every run of the computation takes a world to one related to it. *)
Definition respects {A} (R : World → World → Prop) (c : M A) : Prop :=
  ∀ w, R w (c w).1.2.

(** A response without its datapoints of value [None]. *)
Definition without_nulls (data : StatsResponse) : StatsResponse :=
  {| end_ := end_ data;
     target_responses :=
       map (λ r, {| target := target r;
                    datapoints := filter (λ dp, is_Some dp.1) (datapoints r) |})
           (target_responses data) |}.

(** Every datapoint of the response that has a value has an epoch other
    than 0. *)
Definition nonzero_epoch (dp : option Z * Z) : bool :=
  match dp.1 with
  | Some _ => negb (dp.2 =? 0)
  | None => true
  end.

Definition nonzero_epochs (data : StatsResponse) : bool :=
  forallb (λ r, forallb nonzero_epoch (datapoints r)) (target_responses data).

(** [lt'] has caught up with [lt]: a key that [lt] maps to an epoch other
    than 0 is mapped by [lt'] to an epoch other than 0 that is no smaller. *)
Definition grows (lt lt' : gmap string Z) : Prop :=
  ∀ k E, lt !! k = Some E → E ≠ 0 →
         ∃ E', lt' !! k = Some E' ∧ E' ≠ 0 ∧ E ≤ E'.

(** The ledger refuses every datapoint of the list that has a value. *)
Definition covered (name : string) (dps : list (option Z * Z))
    (lt : gmap string Z) : Prop :=
  ∀ v epoch, (Some v, epoch) ∈ dps → _should_record_data lt name epoch = false.

Definition covered_all (prefix : string) (f : string → string)
    (rs : list TargetResponse) (lt : gmap string Z) : Prop :=
  ∀ r, r ∈ rs → covered (metric_name_of prefix f r) (datapoints r) lt.

(** [{end: e, target_responses: [{target: "GET /a", datapoints: dps}]}] *)
Definition single_target (e : Z) (dps : list (option Z * Z)) : StatsResponse :=
  {| end_ := e;
     target_responses := [ {| target := "GET /a"; datapoints := dps |} ] |}.

(** The message of the service check that [check_connection] submits for a
    failure [e] of the request to [url]. *)
Definition critical_message (url : string) (e : exn) : string :=
  match e with
  | RequestsTimeout detail => "Request timeout: " +:+ url +:+ ", " +:+ detail
  | RequestsHTTPError message => message
  | _ => exn_str e
  end.

(** An instance with the three required keys and no other. *)
Definition instance_c1 : gmap string pyval :=
  <["cluster" := PStr "c1"]>
    (<["username" := PStr "u"]> (<["password" := PStr "p"]> ∅)).

(** Collaborators for the examples: no list is ever printed in them, and
    the request answers every URL with the same outcome. *)
Definition no_repr : list string → string := λ _, "".

Definition always (o : outcome (option StatsResponse))
    : string → pyval * pyval → pyval → outcome (option StatsResponse) :=
  λ _ _ _, o.

(** Whether a character occurs in a string. *)
Fixpoint contains (c : Ascii.ascii) (s : string) : bool :=
  match s with
  | EmptyString => false
  | String c' rest => Ascii.eqb c' c || contains c rest
  end.

(** The tags that a tick on [instance], started in the world [w], submits
    its signals with: the content of the instance's tag list, if it has
    one, followed by the cluster tag. *)
Definition tick_tags (repr_list : list string → string)
    (instance : gmap string pyval) (w : World) : list string :=
  match instance !! "tags" with
  | Some (PList l) => heap w !!! l
  | _ => []
  end
  ++ match instance !! "cluster" with
     | Some v => ["cluster:" +:+ str_of repr_list (heap w) v]
     | None => []
     end.

(** An instance on which [check] reaches both requests: the required keys
    are there, no key is named [endpoint], and [tags] is absent or a
    list. *)
Definition runnable (instance : gmap string pyval) : bool :=
  match _validate_instance instance with
  | Returned _ => true
  | Raised _ => false
  end
  && match instance !! "endpoint" with
     | None => true
     | Some _ => false
     end
  && match instance !! "tags" with
     | None | Some (PList _) => true
     | Some _ => false
     end.

(** The liveness and the metrics URL of a runnable instance. *)
Definition url_of (repr_list : list string → string) (endpoint : string)
    (instance : gmap string pyval) (w : World) : string :=
  URL_TEMPLATE
    (from_option (str_of repr_list (heap w)) "" (instance !! "username"))
    endpoint
    (from_option (str_of repr_list (heap w)) "" (instance !! "cluster")).

(** The timestamp of the last gauge of the given name among the events, if
    there is one. *)
Fixpoint last_gauge_ts (name : string) (evs : list Event) : option Z :=
  match evs with
  | [] => None
  | ev :: rest =>
      match last_gauge_ts name rest with
      | Some ts => Some ts
      | None =>
          match ev with
          | Gauge n _ _ ts => if decide (n = name) then Some ts else None
          | _ => None
          end
      end
  end.

(** The timestamps of the gauges of the given name among the events, in the
    order of submission. *)
Fixpoint gauge_timestamps (name : string) (evs : list Event) : list Z :=
  match evs with
  | [] => []
  | Gauge n _ _ ts :: rest =>
      if decide (n = name) then ts :: gauge_timestamps name rest
      else gauge_timestamps name rest
  | _ :: rest => gauge_timestamps name rest
  end.

(** One gauge for every datapoint that has a value, in order. *)
Fixpoint expected_gauges (name : string) (tags : option (list string))
    (dps : list (option Z * Z)) : list Event :=
  match dps with
  | [] => []
  | (Some v, epoch) :: rest =>
      Gauge name v (Py.or_empty tags) epoch :: expected_gauges name tags rest
  | (None, _) :: rest => expected_gauges name tags rest
  end.

(** The epochs of the datapoints that have a value increase strictly, from
    [prev] on when there is one. *)
Fixpoint increasing_after (prev : option Z) (dps : list (option Z * Z))
    : bool :=
  match dps with
  | [] => true
  | (Some _, epoch) :: rest =>
      match prev with
      | Some p => p <? epoch
      | None => true
      end
      && increasing_after (Some epoch) rest
  | (None, _) :: rest => increasing_after prev rest
  end.

(** Every datapoint of the response that has a value has a positive
    epoch. *)
Definition positive_epoch (dp : option Z * Z) : bool :=
  match dp.1 with
  | Some _ => 0 <? dp.2
  | None => true
  end.

Definition positive_epochs (data : StatsResponse) : bool :=
  forallb (λ r, forallb positive_epoch (datapoints r)) (target_responses data).

(** The gauges expected of a list of target responses, target by target. *)
Fixpoint all_expected_gauges (prefix : string) (f : string → string)
    (tags : option (list string)) (rs : list TargetResponse) : list Event :=
  match rs with
  | [] => []
  | r :: rest =>
      expected_gauges (metric_name_of prefix f r) tags (datapoints r)
      ++ all_expected_gauges prefix f tags rest
  end.

(** The recorded epoch of a name, or 0 when it is negative or absent. *)
Definition floor (name : string) (lt : gmap string Z) : Z :=
  match lt !! name with
  | Some E => Z.max E 0
  | None => 0
  end.

(** The gauges of the given name among [evs] carry strictly increasing
    timestamps, all above the floor of the name in [lt] and none above its
    floor in [lt']. *)
Definition ordered (name : string) (lt : gmap string Z) (evs : list Event)
    (lt' : gmap string Z) : Prop :=
  StronglySorted Z.lt (gauge_timestamps name evs)
  ∧ Forall (λ t, floor name lt < t ∧ t ≤ floor name lt')
      (gauge_timestamps name evs)
  ∧ floor name lt ≤ floor name lt'.

(** The list object that a tick submits its tags from: the instance's tag
    list, or the new list that [check] makes when there is none. *)
Definition tick_list (instance : gmap string pyval) (w : World) : loc :=
  match instance !! "tags" with
  | Some (PList l) => l
  | _ => fresh (dom (heap w))
  end.

(** The world in which a tick makes its requests: the ledger as the tick
    found it, and the tag list with the cluster tag appended. *)
Definition tick_start (repr_list : list string → string)
    (instance : gmap string pyval) (w : World) : World :=
  {| last_timestamps := last_timestamps w;
     heap := <[tick_list instance w := tick_tags repr_list instance w]>
               (heap w) |}.

(** The tags of a gauge or of a service check. *)
Definition signal_tags (ev : Event) : option (list string) :=
  match ev with
  | Gauge _ _ tags _ => Some tags
  | ServiceCheck _ _ tags _ => Some tags
  | _ => None
  end.

(** A service that answers every request with the same body. *)
Definition answers (requests_get :
      string → pyval * pyval → pyval → outcome (option StatsResponse))
    (data : option StatsResponse) : Prop :=
  ∀ url auth timeout, requests_get url auth timeout = Returned data.

(** * Properties of the dedup ledger *)

Section LedgerProperties.

Implicit Types (lt : gmap string Z) (tag : string) (epoch E : Z).

Lemma should_record_absent lt tag epoch :
  lt !! tag = None → _should_record_data lt tag epoch = true.
Proof. intros H. unfold _should_record_data. by rewrite H. Qed.

Lemma should_record_zero lt tag epoch :
  lt !! tag = Some 0 → _should_record_data lt tag epoch = true.
Proof. intros H. unfold _should_record_data. by rewrite H. Qed.

Lemma should_record_stored lt tag E epoch :
  lt !! tag = Some E → E ≠ 0 →
  _should_record_data lt tag epoch = true ↔ E < epoch.
Proof.
  intros H HE. unfold _should_record_data. rewrite H. simpl.
  destruct (Z.eqb_spec E 0) as [|_]; [done |]. simpl.
  apply Z.ltb_lt.
Qed.

Lemma should_record_true lt tag epoch :
  _should_record_data lt tag epoch = true ↔
  lt !! tag = None ∨ lt !! tag = Some 0
  ∨ ∃ E, lt !! tag = Some E ∧ E < epoch.
Proof.
  unfold _should_record_data.
  destruct (lt !! tag) as [E|] eqn:H; simpl; [| by split; auto].
  destruct (Z.eqb_spec E 0) as [->|HE]; simpl; [by split; auto |].
  rewrite Z.ltb_lt. split; [by right; right; exists E |].
  intros [? | [? | (E' & ? & ?)]]; simplify_eq; done.
Qed.

Lemma should_record_false lt tag epoch :
  _should_record_data lt tag epoch = false ↔
  ∃ E, lt !! tag = Some E ∧ E ≠ 0 ∧ epoch ≤ E.
Proof.
  unfold _should_record_data.
  destruct (lt !! tag) as [E|] eqn:H; simpl.
  2: { split; [done | by intros (? & ? & _)]. }
  destruct (Z.eqb_spec E 0) as [->|HE]; simpl.
  { split; [done | intros (E' & ? & ? & _); simplify_eq]. }
  rewrite Z.ltb_ge. split; [by exists E |].
  intros (E' & ? & ? & ?); simplify_eq; done.
Qed.

End LedgerProperties.

(** * Properties of the response mapper *)

Section MapperProperties.

Implicit Types (lt : gmap string Z) (name prefix : string)
  (tags : option (list string)) (dps : list (option Z * Z))
  (rs : list TargetResponse) (f : string → string).

Lemma length_append (s t : string) :
  String.length (s +:+ t) = (String.length s + String.length t)%nat.
Proof. induction s as [|c s IH]; simpl; [done | by rewrite IH]. Qed.

Lemma metric_name_of_eq prefix f r :
  metric_name_of prefix f r = prefix +:+ "." +:+ f (target r).
Proof. reflexivity. Qed.

(** A metric name is longer than the prefix it extends. *)
Lemma metric_name_longer prefix f r :
  (String.length prefix < String.length (metric_name_of prefix f r))%nat.
Proof. rewrite metric_name_of_eq, !length_append. simpl. lia. Qed.

Lemma metric_name_ne_prefix prefix f r : metric_name_of prefix f r ≠ prefix.
Proof.
  intros H. pose proof (metric_name_longer prefix f r) as Hlen.
  rewrite H in Hlen. lia.
Qed.

(** The three ways through one iteration of the inner loop. *)
Lemma record_datapoints_null name tags lt epoch dps :
  record_datapoints name tags lt ((None, epoch) :: dps)
  = record_datapoints name tags lt dps.
Proof. reflexivity. Qed.

Lemma record_datapoints_old name tags lt v epoch dps :
  _should_record_data lt name epoch = false →
  record_datapoints name tags lt ((Some v, epoch) :: dps)
  = record_datapoints name tags lt dps.
Proof. intros H. simpl. by rewrite H. Qed.

Lemma record_datapoints_new name tags lt v epoch dps :
  _should_record_data lt name epoch = true →
  record_datapoints name tags lt ((Some v, epoch) :: dps)
  = ((record_datapoints name tags (<[name := epoch]> lt) dps).1,
     LogInfo ("Recording data: " +:+ name +:+ ", " +:+ pretty v)
     :: Gauge name v (Py.or_empty tags) epoch
     :: (record_datapoints name tags (<[name := epoch]> lt) dps).2).
Proof.
  intros H. simpl. rewrite H.
  by destruct (record_datapoints name tags (<[name := epoch]> lt) dps).
Qed.

Lemma record_responses_cons prefix f tags lt r rs :
  record_responses prefix f tags lt (r :: rs)
  = let a := record_datapoints (metric_name_of prefix f r) tags lt
               (datapoints r) in
    let b := record_responses prefix f tags a.1 rs in
    (b.1, a.2 ++ b.2).
Proof.
  simpl.
  destruct (record_datapoints _ tags lt (datapoints r)) as [lt1 evs1]. simpl.
  by destruct (record_responses prefix f tags lt1 rs).
Qed.

(** Induction over the datapoints of a target, by the way each iteration
    takes. *)
Ltac datapoints_induction dps lt :=
  let v := fresh "v" in
  let epoch := fresh "epoch" in
  revert lt; induction dps as [|[[v|] epoch] dps IH]; intros lt;
  [ | match goal with
      | |- context [record_datapoints ?name _ lt ((Some _, ?e) :: _)] =>
          destruct (_should_record_data lt name e) eqn:Hrec;
          [ rewrite record_datapoints_new by done
          | rewrite record_datapoints_old by done ]
      end
    | rewrite record_datapoints_null ].

(** The inner loop writes the ledger under its metric name only. *)
Lemma record_datapoints_other name tags lt dps k :
  k ≠ name → (record_datapoints name tags lt dps).1 !! k = lt !! k.
Proof.
  intros Hk. datapoints_induction dps lt; simpl; [done | | done | done].
  rewrite IH. by apply lookup_insert_ne.
Qed.

Lemma record_responses_other prefix f tags lt rs k :
  (∀ r, r ∈ rs → metric_name_of prefix f r ≠ k) →
  (record_responses prefix f tags lt rs).1 !! k = lt !! k.
Proof.
  revert lt. induction rs as [|r rs IH]; intros lt Hk; [done |].
  rewrite record_responses_cons. simpl.
  rewrite IH by (intros r' ?; apply Hk; by apply list_elem_of_further).
  apply record_datapoints_other.
  intros ->. apply (Hk r); [apply list_elem_of_here | done].
Qed.

(** A key whose entry a run of the outer loop changed is the metric name of
    one of the targets. *)
Lemma record_responses_changed prefix f tags lt rs k :
  (record_responses prefix f tags lt rs).1 !! k ≠ lt !! k →
  ∃ r, r ∈ rs ∧ k = metric_name_of prefix f r.
Proof.
  revert lt. induction rs as [|r rs IH]; intros lt; [done |].
  rewrite record_responses_cons. simpl. intros Hk.
  destruct (decide (k = metric_name_of prefix f r)) as [->|Hne].
  { exists r. split; [apply list_elem_of_here | done]. }
  rewrite <- (record_datapoints_other (metric_name_of prefix f r) tags lt
                (datapoints r) k Hne) in Hk.
  destruct (IH _ Hk) as (r' & Hr' & ->).
  exists r'. split; [by apply list_elem_of_further | done].
Qed.

(** [record_data] leaves the entry of its own prefix as it found it. *)
Lemma record_data_prefix_entry data endpoint_name f tags lt :
  (record_data data endpoint_name f tags lt).1.2 !! prefix_of endpoint_name
  = lt !! prefix_of endpoint_name.
Proof.
  unfold record_data. destruct data as [data|]; [| done].
  destruct (negb _); [done |].
  destruct (record_responses _ f tags lt (target_responses data))
    as [lt' evs] eqn:H. simpl.
  change lt' with (lt', evs).1. rewrite <- H.
  apply record_responses_other. intros r _. apply metric_name_ne_prefix.
Qed.

(** Where a gauge comes from. *)
Lemma record_datapoints_gauge name tags lt dps n v tg ts :
  Gauge n v tg ts ∈ (record_datapoints name tags lt dps).2 →
  n = name ∧ tg = Py.or_empty tags ∧ (Some v, ts) ∈ dps.
Proof.
  datapoints_induction dps lt; simpl.
  - by intros ?%elem_of_nil.
  - intros [? | [? | H]%elem_of_cons]%elem_of_cons; [done | |].
    + simplify_eq. repeat split. apply list_elem_of_here.
    + destruct (IH _ H) as (? & ? & ?). repeat split; [done .. | by apply list_elem_of_further].
  - intros H. destruct (IH _ H) as (? & ? & ?).
    repeat split; [done .. | by apply list_elem_of_further].
  - intros H. destruct (IH _ H) as (? & ? & ?).
    repeat split; [done .. | by apply list_elem_of_further].
Qed.

Lemma record_responses_gauge prefix f tags lt rs n v tg ts :
  Gauge n v tg ts ∈ (record_responses prefix f tags lt rs).2 →
  ∃ r, r ∈ rs ∧ n = metric_name_of prefix f r ∧ tg = Py.or_empty tags
       ∧ (Some v, ts) ∈ datapoints r.
Proof.
  revert lt. induction rs as [|r rs IH]; intros lt.
  { by intros ?%elem_of_nil. }
  rewrite record_responses_cons. simpl.
  intros [H | H]%elem_of_app.
  - apply record_datapoints_gauge in H as (? & ? & ?).
    exists r. repeat split; [apply list_elem_of_here | done ..].
  - destruct (IH _ H) as (r' & ? & ? & ? & ?).
    exists r'. repeat split; [by apply list_elem_of_further | done ..].
Qed.

(** Datapoints of value [None] change nothing. *)
Lemma record_datapoints_without_nulls name tags lt dps :
  record_datapoints name tags lt (filter (λ dp, is_Some dp.1) dps)
  = record_datapoints name tags lt dps.
Proof.
  revert lt. induction dps as [|[[v|] epoch] dps IH]; intros lt; [done | |].
  - rewrite filter_cons_True by (by eexists). simpl.
    destruct (_should_record_data lt name epoch); by rewrite IH.
  - rewrite filter_cons_False by (simpl; by intros [? ?]).
    by rewrite record_datapoints_null.
Qed.

Lemma record_responses_without_nulls prefix f tags lt rs :
  record_responses prefix f tags lt
    (map (λ r, {| target := target r;
                  datapoints := filter (λ dp, is_Some dp.1) (datapoints r) |})
         rs)
  = record_responses prefix f tags lt rs.
Proof.
  revert lt. induction rs as [|r rs IH]; intros lt; [done |].
  rewrite map_cons, !record_responses_cons. cbv zeta.
  set (r' := {| target := target r; datapoints := _ |}).
  change (metric_name_of prefix f r') with (metric_name_of prefix f r).
  change (datapoints r')
    with (filter (λ dp : option Z * Z, is_Some dp.1) (datapoints r)).
  by rewrite record_datapoints_without_nulls, IH.
Qed.

(** ** Replaying a batch *)

Lemma grows_refl lt : grows lt lt.
Proof. intros k E H HE. by exists E. Qed.

Lemma grows_trans lt1 lt2 lt3 : grows lt1 lt2 → grows lt2 lt3 → grows lt1 lt3.
Proof.
  intros H12 H23 k E H HE.
  destruct (H12 k E H HE) as (E2 & H2 & HE2 & ?).
  destruct (H23 k E2 H2 HE2) as (E3 & H3 & HE3 & ?).
  exists E3. repeat split; [done .. | lia].
Qed.

Lemma grows_insert lt name epoch :
  _should_record_data lt name epoch = true → epoch ≠ 0 →
  grows lt (<[name := epoch]> lt).
Proof.
  intros Hrec Hepoch k E H HE.
  destruct (decide (k = name)) as [->|Hne].
  - exists epoch. rewrite lookup_insert_eq. repeat split; [done |].
    apply (should_record_stored lt name E epoch H HE) in Hrec. lia.
  - exists E. rewrite lookup_insert_ne by done. done.
Qed.

Lemma covered_grows name dps lt lt' :
  covered name dps lt → grows lt lt' → covered name dps lt'.
Proof.
  intros Hc Hg v epoch Hin.
  specialize (Hc v epoch Hin).
  apply should_record_false in Hc as (E & H & HE & ?).
  destruct (Hg name E H HE) as (E' & H' & HE' & ?).
  apply should_record_false. exists E'. repeat split; [done .. | lia].
Qed.

Lemma covered_cons name dp dps lt :
  covered name (dp :: dps) lt → covered name dps lt.
Proof. intros H v epoch Hin. apply (H v epoch). by apply list_elem_of_further. Qed.

(** A ledger that refuses every datapoint is left alone, and nothing is
    submitted. *)
Lemma covered_noop name tags lt dps :
  covered name dps lt → record_datapoints name tags lt dps = (lt, []).
Proof.
  induction dps as [|[[v|] epoch] dps IH]; intros Hc; [done | |].
  - rewrite record_datapoints_old; [by eapply IH, covered_cons |].
    apply (Hc v epoch), list_elem_of_here.
  - rewrite record_datapoints_null. by eapply IH, covered_cons.
Qed.

Lemma covered_all_noop prefix f tags lt rs :
  covered_all prefix f rs lt → record_responses prefix f tags lt rs = (lt, []).
Proof.
  induction rs as [|r rs IH]; intros Hc; [done |].
  rewrite record_responses_cons.
  rewrite covered_noop by apply (Hc r), list_elem_of_here. simpl.
  rewrite IH; [done |].
  intros r' Hr'. by apply (Hc r'), list_elem_of_further.
Qed.

Lemma record_datapoints_grows name tags lt dps :
  forallb nonzero_epoch dps = true →
  grows lt (record_datapoints name tags lt dps).1.
Proof.
  datapoints_induction dps lt; simpl; intros Hnz.
  - apply grows_refl.
  - apply andb_prop in Hnz as [Hnz1 Hnz2].
    eapply grows_trans; [| by apply IH].
    apply grows_insert; [done |].
    unfold nonzero_epoch in Hnz1. simpl in Hnz1.
    by destruct (Z.eqb_spec epoch 0).
  - apply andb_prop in Hnz as [_ Hnz2]. by apply IH.
  - by apply IH.
Qed.

(** After the inner loop the ledger refuses every datapoint it went
    through, provided their epochs are not 0. *)
Lemma record_datapoints_covers name tags lt dps :
  forallb nonzero_epoch dps = true →
  covered name dps (record_datapoints name tags lt dps).1.
Proof.
  datapoints_induction dps lt; simpl; intros Hnz.
  - by intros v epoch ?%elem_of_nil.
  - apply andb_prop in Hnz as [Hnz1 Hnz2].
    assert (epoch ≠ 0) as Hepoch.
    { unfold nonzero_epoch in Hnz1. simpl in Hnz1.
      by destruct (Z.eqb_spec epoch 0). }
    intros v' epoch' [Heq | Hin]%elem_of_cons;
      [| by apply (IH _ Hnz2 v' epoch')].
    simplify_eq.
    destruct (record_datapoints_grows name tags (<[name := epoch]> lt) dps
                Hnz2 name epoch) as (E' & H' & HE' & ?); [| done |].
    { apply lookup_insert_eq. }
    apply should_record_false. by exists E'.
  - apply andb_prop in Hnz as [_ Hnz2].
    intros v' epoch' [Heq | Hin]%elem_of_cons;
      [| by apply (IH _ Hnz2 v' epoch')].
    simplify_eq.
    apply should_record_false in Hrec as (E & H & HE & ?).
    destruct (record_datapoints_grows name tags lt dps Hnz2 name E)
      as (E' & H' & HE' & ?); [done .. |].
    apply should_record_false. exists E'. repeat split; [done .. | lia].
  - intros v' epoch' [Heq | Hin]%elem_of_cons;
      [done | by apply (IH _ Hnz v' epoch')].
Qed.

Lemma record_responses_grows prefix f tags lt rs :
  forallb (λ r, forallb nonzero_epoch (datapoints r)) rs = true →
  grows lt (record_responses prefix f tags lt rs).1.
Proof.
  revert lt. induction rs as [|r rs IH]; intros lt Hnz; [apply grows_refl |].
  apply andb_prop in Hnz as [Hnz1 Hnz2].
  rewrite record_responses_cons. simpl.
  eapply grows_trans; [by apply record_datapoints_grows | by apply IH].
Qed.

Lemma record_responses_covers prefix f tags lt rs :
  forallb (λ r, forallb nonzero_epoch (datapoints r)) rs = true →
  covered_all prefix f rs (record_responses prefix f tags lt rs).1.
Proof.
  revert lt. induction rs as [|r rs IH]; intros lt Hnz.
  { by intros r ?%elem_of_nil. }
  apply andb_prop in Hnz as [Hnz1 Hnz2].
  rewrite record_responses_cons. simpl.
  intros r' [-> | Hin]%elem_of_cons; [| by apply (IH _ Hnz2 r')].
  eapply covered_grows; [by apply record_datapoints_covers |].
  by apply record_responses_grows.
Qed.


(** The second of two calls with the same batch finds a ledger that refuses
    all of it, provided no datapoint carries the epoch 0. *)
Lemma record_data_replay data endpoint_name f tags lt :
  nonzero_epochs data = true →
  record_data (Some data) endpoint_name f tags
    (record_data (Some data) endpoint_name f tags lt).1.2
  = (Returned (), (record_data (Some data) endpoint_name f tags lt).1.2, [])
  ∨ record_data (Some data) endpoint_name f tags
      (record_data (Some data) endpoint_name f tags lt).1.2
    = (Returned (), (record_data (Some data) endpoint_name f tags lt).1.2,
       [LogInfo ("Skipping old data: " +:+ prefix_of endpoint_name)]).
Proof.
  intros Hnz.
  pose proof (record_data_prefix_entry (Some data) endpoint_name f tags lt)
    as Hprefix.
  set (lt1 := (record_data (Some data) endpoint_name f tags lt).1.2) in *.
  assert (_should_record_data lt1 (prefix_of endpoint_name) (end_ data)
          = _should_record_data lt (prefix_of endpoint_name) (end_ data))
    as Hgate.
  { unfold _should_record_data. by rewrite Hprefix. }
  unfold record_data. rewrite Hgate.
  destruct (_should_record_data lt (prefix_of endpoint_name) (end_ data))
    eqn:Hrec; simpl; [left | by right].
  assert (lt1 = (record_responses (prefix_of endpoint_name) f tags lt
                   (target_responses data)).1) as Hlt1.
  { unfold lt1, record_data. rewrite Hrec. simpl.
    by destruct (record_responses _ f tags lt (target_responses data)). }
  rewrite covered_all_noop; [done |].
  rewrite Hlt1. by apply record_responses_covers.
Qed.

(** ** Recorded epochs that are positive *)

Lemma record_datapoints_mono name tags lt dps k E :
  lt !! k = Some E → 0 < E →
  ∃ E', (record_datapoints name tags lt dps).1 !! k = Some E' ∧ E ≤ E'.
Proof.
  revert E. datapoints_induction dps lt; simpl; intros E H HE.
  - by exists E.
  - destruct (decide (k = name)) as [->|Hne].
    + apply (should_record_stored lt name E epoch) in Hrec; [| done | lia].
      destruct (IH (<[name := epoch]> lt) epoch) as (E' & ? & ?);
        [apply lookup_insert_eq | lia |].
      exists E'. split; [done | lia].
    + apply IH; [by rewrite lookup_insert_ne | done].
  - by apply IH.
  - by apply IH.
Qed.

Lemma record_responses_mono prefix f tags lt rs k E :
  lt !! k = Some E → 0 < E →
  ∃ E', (record_responses prefix f tags lt rs).1 !! k = Some E' ∧ E ≤ E'.
Proof.
  revert lt E. induction rs as [|r rs IH]; intros lt E H HE.
  { by exists E. }
  rewrite record_responses_cons. simpl.
  destruct (record_datapoints_mono (metric_name_of prefix f r) tags lt
              (datapoints r) k E H HE) as (E1 & H1 & ?).
  destruct (IH _ E1 H1) as (E2 & H2 & ?); [lia |].
  exists E2. split; [done | lia].
Qed.

Lemma record_datapoints_gauge_fresh name tags lt dps E v tg ts :
  lt !! name = Some E → 0 < E →
  Gauge name v tg ts ∈ (record_datapoints name tags lt dps).2 → E < ts.
Proof.
  revert E. datapoints_induction dps lt; simpl; intros E H HE.
  - by intros ?%elem_of_nil.
  - apply (should_record_stored lt name E epoch) in Hrec; [| done | lia].
    intros [? | [? | Hin]%elem_of_cons]%elem_of_cons; [done | |].
    + by simplify_eq.
    + apply (Z.lt_trans _ epoch); [done |].
      apply (IH (<[name := epoch]> lt) epoch);
        [apply lookup_insert_eq | lia | done].
  - by apply IH.
  - by apply IH.
Qed.

Lemma record_responses_gauge_fresh prefix f tags lt rs k E v tg ts :
  lt !! k = Some E → 0 < E →
  Gauge k v tg ts ∈ (record_responses prefix f tags lt rs).2 → E < ts.
Proof.
  revert lt E. induction rs as [|r rs IH]; intros lt E H HE.
  { by intros ?%elem_of_nil. }
  rewrite record_responses_cons. simpl.
  intros [Hin | Hin]%elem_of_app.
  - pose proof (record_datapoints_gauge _ _ _ _ _ _ _ _ Hin) as (-> & _ & _).
    by eapply record_datapoints_gauge_fresh.
  - destruct (record_datapoints_mono (metric_name_of prefix f r) tags lt
                (datapoints r) k E H HE) as (E1 & H1 & ?).
    assert (E1 < ts); [| lia].
    eapply IH; [done | lia | done].
Qed.

End MapperProperties.

(** * The ledger and the mapper against the specification *)

(** C1. On an empty ledger, [record_data] with the response
    [{end: 100, target_responses: [{target: "GET /a", datapoints: [[5, 90]]}]}],
    the endpoint name [status_code] and the transform that strips a target
    up to its first space returns normally, submits exactly one gauge,
    [cloudant.status_code./a] with value 5 and timestamp 90, and stores 90
    under [cloudant.status_code./a]. That entry is the whole ledger
    afterwards: there is no entry under the prefix [cloudant.status_code],
    where the scenario expects 100. *)
Theorem record_data_first_call :
  let result :=
    record_data (Some (single_target 100 [(Some 5, 90)])) "status_code"
      status_code_stat_name None ∅ in
  result.1.1 = Returned ()
  ∧ gauges result.2 = [Gauge "cloudant.status_code./a" 5 [] 90]
  ∧ result.1.2 !! "cloudant.status_code./a" = Some 90
  ∧ result.1.2 = {[ "cloudant.status_code./a" := 90 ]}
  ∧ result.1.2 !! "cloudant.status_code" = None.
Proof. vm_compute. repeat split. Qed.

(** C2. [_should_record_data] answers true for a key the ledger does not
    hold, whatever the epoch. For a key with a stored epoch it does not
    always answer by [epoch > E]: with the epoch 0 stored it answers true
    for the epoch 0, and for the epoch -1, because [not last_ts] holds of 0
    as it does of [None]. *)
Theorem should_record_data_stored_zero :
  (∀ (lt : gmap string Z) key epoch,
     lt !! key = None → _should_record_data lt key epoch = true)
  ∧ _should_record_data {[ "cloudant.status_code./a" := 0 ]}
      "cloudant.status_code./a" 0 = true
  ∧ _should_record_data {[ "cloudant.status_code./a" := 0 ]}
      "cloudant.status_code./a" (-1) = true
  ∧ ¬ (∀ (lt : gmap string Z) key E epoch,
         lt !! key = Some E →
         _should_record_data lt key epoch = true ↔ epoch > E).
Proof.
  split; [apply should_record_absent |].
  split; [done |]. split; [done |].
  intros H.
  specialize (H {[ "cloudant.status_code./a" := 0 ]}
                "cloudant.status_code./a" 0 0 eq_refl).
  assert (0 > 0); [by apply H | lia].
Qed.


(** C5. Once the epoch 0 is recorded for a metric name, the ledger no
    longer guards that name: a later datapoint of epoch 0, which does not
    exceed the recorded epoch, is submitted again, and so is a datapoint of
    epoch -1, after which the recorded epoch has decreased from 0 to -1. *)
Theorem record_data_after_epoch_zero :
  let name := "cloudant.status_code./a" in
  let call dps lt :=
    record_data (Some dps) "status_code" status_code_stat_name None lt in
  let lt1 := (call (single_target 100 [(Some 5, 0)]) ∅).1.2 in
  lt1 !! name = Some 0
  ∧ gauges (call (single_target 200 [(Some 6, 0)]) lt1).2
    = [Gauge name 6 [] 0]
  ∧ gauges (call (single_target 200 [(Some 7, -1)]) lt1).2
    = [Gauge name 7 [] (-1)]
  ∧ (call (single_target 200 [(Some 7, -1)]) lt1).1.2 !! name = Some (-1).
Proof. vm_compute. repeat split. Qed.

(** C6. Calling [record_data] a second time with the same batch submits the
    gauge again when its datapoint carries the epoch 0: the first call
    records 0 for the metric name, and the second call reads that 0 as no
    record at all. *)
Theorem record_data_replay_epoch_zero :
  let data := single_target 100 [(Some 5, 0)] in
  let first :=
    record_data (Some data) "status_code" status_code_stat_name None ∅ in
  let second :=
    record_data (Some data) "status_code" status_code_stat_name None
      first.1.2 in
  gauges first.2 = [Gauge "cloudant.status_code./a" 5 [] 0]
  ∧ gauges second.2 = [Gauge "cloudant.status_code./a" 5 [] 0].
Proof. vm_compute. repeat split. Qed.

(** C10. A datapoint whose value is [None] is never submitted as a gauge,
    whatever the ledger holds: [record_data] behaves on a response as it
    does on the response without its datapoints of value [None] (same
    outcome, same ledger, same events), and every gauge it submits carries
    the value and the epoch of a datapoint that has a value, under the
    metric name of that datapoint's target. *)
Theorem record_data_ignores_null_values data endpoint_name f tags
    (lt : gmap string Z) :
  record_data (Some (without_nulls data)) endpoint_name f tags lt
  = record_data (Some data) endpoint_name f tags lt
  ∧ ∀ n v tg ts,
      Gauge n v tg ts ∈ (record_data (Some data) endpoint_name f tags lt).2 →
      ∃ r, r ∈ target_responses data
           ∧ n = metric_name_of (prefix_of endpoint_name) f r
           ∧ (Some v, ts) ∈ datapoints r.
Proof.
  split.
  - unfold record_data, without_nulls. cbn [end_ target_responses].
    by rewrite record_responses_without_nulls.
  - intros n v tg ts. unfold record_data.
    destruct (negb _).
    { cbn [snd]. intros [? | ?%elem_of_nil]%elem_of_cons; done. }
    destruct (record_responses _ f tags lt (target_responses data))
      as [lt' evs] eqn:H. cbn [snd].
    change evs with (lt', evs).2. rewrite <- H.
    intros (r & ? & ? & _ & ?)%record_responses_gauge. by exists r.
Qed.

(** * Properties of the check *)

Section CheckProperties.

Variable repr_list : list string → string.
Variable requests_get :
  string → pyval * pyval → pyval → outcome (option StatsResponse).

Implicit Types (instance : gmap string pyval) (w : World) (tags : loc).

(** Building a URL reads the world and submits nothing. *)
Lemma build_url_frame endpoint instance w :
  ∃ r, _build_url repr_list endpoint instance w = (r, w, []).
Proof.
  unfold _build_url. destruct (instance !! "endpoint"); [by eexists |].
  unfold bind, item, format, ret, raise.
  destruct (instance !! "username"); [| by eexists].
  destruct (instance !! "cluster"); by eexists.
Qed.

Lemma build_url_ok endpoint instance w u c :
  instance !! "endpoint" = None →
  instance !! "username" = Some (PStr u) →
  instance !! "cluster" = Some (PStr c) →
  _build_url repr_list endpoint instance w
  = (Returned (URL_TEMPLATE u endpoint c), w, []).
Proof.
  intros He Hu Hc. unfold _build_url, bind, item, format, ret.
  by rewrite He, Hu, Hc.
Qed.

Lemma build_url_cluster endpoint instance w url w' evs :
  _build_url repr_list endpoint instance w = (Returned url, w', evs) →
  is_Some (instance !! "cluster").
Proof.
  unfold _build_url. destruct (instance !! "endpoint"); [done |].
  unfold bind, item, format, ret, raise.
  destruct (instance !! "username"); [| done].
  by destruct (instance !! "cluster").
Qed.

(** The request leaves the world alone and logs the URL. *)
Lemma get_stats_frame url instance w :
  ∃ r, _get_stats requests_get url instance w
       = (r, w, [LogDebug ("Fetching Cloudant stats at url: " +:+ url)]).
Proof.
  unfold _get_stats, bind, emit, item, lift, ret, raise.
  destruct (instance !! "username"); [| by eexists].
  destruct (instance !! "password"); by eexists.
Qed.

Lemma get_stats_ok url instance w u p :
  instance !! "username" = Some u → instance !! "password" = Some p →
  _get_stats requests_get url instance w
  = (requests_get url (u, p) (default (PInt TIMEOUT) (instance !! "timeout")),
     w, [LogDebug ("Fetching Cloudant stats at url: " +:+ url)]).
Proof.
  intros Hu Hp. unfold _get_stats, bind, emit, item, lift, ret.
  rewrite Hu, Hp. by destruct (requests_get _ _ _).
Qed.

Lemma service_check_eq status tags message w :
  service_check status tags message w
  = (Returned (), w,
     [ServiceCheck SERVICE_CHECK_NAME status (heap w !!! tags) message]).
Proof. reflexivity. Qed.

(** What [check_connection] does once the URL is built, by the outcome of
    the request. *)
Lemma check_connection_ok instance tags w url a :
  _build_url repr_list "uptime" instance w = (Returned url, w, []) →
  (_get_stats requests_get url instance w).1.1 = Returned a →
  check_connection repr_list requests_get instance tags w
  = (Returned (), w,
     [LogDebug ("Fetching Cloudant stats at url: " +:+ url);
      ServiceCheck SERVICE_CHECK_NAME OK (heap w !!! tags)
        ("Connection to " +:+ url +:+ " was successful")]).
Proof.
  intros Hb Hg. unfold check_connection, bind. rewrite Hb.
  unfold try_except_else.
  destruct (get_stats_frame url instance w) as [r Hr].
  rewrite Hr in Hg |- *. simpl in Hg. subst r.
  by rewrite service_check_eq.
Qed.

Lemma check_connection_critical instance tags w url e :
  _build_url repr_list "uptime" instance w = (Returned url, w, []) →
  (_get_stats requests_get url instance w).1.1 = Raised e →
  check_connection repr_list requests_get instance tags w
  = (Raised e, w,
     [LogDebug ("Fetching Cloudant stats at url: " +:+ url);
      ServiceCheck SERVICE_CHECK_NAME CRITICAL (heap w !!! tags)
        (critical_message url e)]).
Proof.
  intros Hb Hg. unfold check_connection, bind. rewrite Hb.
  unfold try_except_else.
  destruct (get_stats_frame url instance w) as [r Hr].
  rewrite Hr in Hg |- *. simpl in Hg. subst r.
  destruct e; unfold bind; by rewrite service_check_eq.
Qed.

Lemma check_connection_no_url instance tags w e :
  _build_url repr_list "uptime" instance w = (Raised e, w, []) →
  check_connection repr_list requests_get instance tags w = (Raised e, w, []).
Proof. intros Hb. unfold check_connection, bind. by rewrite Hb. Qed.

Lemma check_connection_frame instance tags w :
  (check_connection repr_list requests_get instance tags w).1.2 = w.
Proof.
  destruct (build_url_frame "uptime" instance w) as [[url|e] Hb].
  - destruct (_get_stats requests_get url instance w).1.1 as [a|e] eqn:Hg.
    + by rewrite (check_connection_ok instance tags w url a).
    + by rewrite (check_connection_critical instance tags w url e).
  - by rewrite (check_connection_no_url instance tags w e).
Qed.

(** The metrics step never touches the store of list objects. *)
Lemma get_status_code_data_heap instance tags w :
  heap (get_status_code_data repr_list requests_get instance tags w).1.2
  = heap w.
Proof.
  unfold get_status_code_data, bind.
  destruct (build_url_frame "rate/status_code" instance w) as [[url|e] ->];
    [| done].
  unfold item. destruct (instance !! "cluster"); [| done].
  unfold ret, format, try_except_else.
  destruct (get_stats_frame url instance w) as [[data|e] ->].
  - unfold bind, emit, ret, read_list, on_ledger.
    destruct data; cbn -[record_data]; [| done].
    match goal with
    | |- context [record_data ?d ?n ?f ?t ?l] =>
        by destruct (record_data d n f t l) as [[r lt] evs]
    end.
  - by destruct e.
Qed.

(** A payload of [None] is warned about and then handed to [record_data],
    which raises. *)
Lemma get_status_code_data_none instance tags w url :
  _build_url repr_list "rate/status_code" instance w = (Returned url, w, []) →
  (_get_stats requests_get url instance w).1.1 = Returned None →
  get_status_code_data repr_list requests_get instance tags w
  = (Raised (TypeError "'NoneType' object has no attribute '__getitem__'"),
     w,
     [LogDebug ("Fetching Cloudant stats at url: " +:+ url);
      Warning ("No stats could be retrieved from " +:+ url)]).
Proof.
  intros Hb Hg. destruct (build_url_cluster _ _ _ _ _ _ Hb) as [c Hc].
  unfold get_status_code_data, bind. rewrite Hb.
  unfold item. rewrite Hc. unfold ret, format, try_except_else.
  destruct (get_stats_frame url instance w) as [r Hr].
  rewrite Hr in Hg |- *. simpl in Hg. subst r.
  unfold bind, emit, read_list, on_ledger. simpl. by destruct w.
Qed.

(** One tick appends the cluster tag to the list object that the instance
    holds under [tags]. *)
Lemma check_heap instance l v w :
  _validate_instance instance = Returned () →
  instance !! "tags" = Some (PList l) →
  instance !! "cluster" = Some v →
  heap (check repr_list requests_get instance w).1.2
  = <[l := (heap w !!! l) ++ ["cluster:" +:+ str_of repr_list (heap w) v]]>
      (heap w).
Proof.
  intros Hv Ht Hc. unfold check, bind, lift. rewrite Hv, Ht.
  unfold ret, append_of, item. rewrite Hc. unfold ret, format, list_append.
  set (w' := {| last_timestamps := last_timestamps w; heap := _ |}).
  pose proof (check_connection_frame instance l w') as Hframe.
  destruct (check_connection repr_list requests_get instance l w')
    as [[[[]|e] w1] evs1]; simpl in Hframe; subst w1; [| done].
  pose proof (get_status_code_data_heap instance l w') as Hheap.
  by destruct (get_status_code_data repr_list requests_get instance l w')
    as [[r w2] evs2].
Qed.

(** ** Relations that every step of a tick respects *)

Section Respects.

Variable R : World → World → Prop.
Hypothesis R_refl : ∀ w, R w w.
Hypothesis R_trans : ∀ w1 w2 w3, R w1 w2 → R w2 w3 → R w1 w3.

Lemma respects_same {A} (c : M A) : (∀ w, (c w).1.2 = w) → respects R c.
Proof. intros H w. by rewrite H. Qed.

Lemma respects_bind {A B} (c : M A) (k : A → M B) :
  respects R c → (∀ a, respects R (k a)) → respects R (bind c k).
Proof.
  intros Hc Hk w. unfold bind. specialize (Hc w).
  destruct (c w) as [[[a|e] w1] evs]; simpl in *; [| done].
  specialize (Hk a w1). destruct (k a w1) as [[r w2] evs2]. simpl in *.
  by eapply R_trans.
Qed.

Lemma respects_try_except_else {A B} (c : M A) (handler : exn → M B)
    (orelse : A → M B) :
  respects R c → (∀ e, respects R (handler e)) →
  (∀ a, respects R (orelse a)) →
  respects R (try_except_else c handler orelse).
Proof.
  intros Hc Hh Ho w. unfold try_except_else. specialize (Hc w).
  destruct (c w) as [[[a|e] w1] evs]; simpl in *.
  - specialize (Ho a w1). destruct (orelse a w1) as [[r w2] evs2].
    simpl in *. by eapply R_trans.
  - specialize (Hh e w1). destruct (handler e w1) as [[r w2] evs2].
    simpl in *. by eapply R_trans.
Qed.

Lemma build_url_respects endpoint instance :
  respects R (_build_url repr_list endpoint instance).
Proof.
  apply respects_same. intros w.
  by destruct (build_url_frame endpoint instance w) as [r ->].
Qed.

Lemma get_stats_respects url instance :
  respects R (_get_stats requests_get url instance).
Proof.
  apply respects_same. intros w.
  by destruct (get_stats_frame url instance w) as [r ->].
Qed.

Lemma item_respects instance key : respects R (item instance key).
Proof.
  apply respects_same. intros w. unfold item.
  by destruct (instance !! key).
Qed.

Lemma check_connection_respects instance tags :
  respects R (check_connection repr_list requests_get instance tags).
Proof. apply respects_same, check_connection_frame. Qed.

Lemma get_status_code_data_respects instance tags :
  (∀ data (tgs : option (list string)),
     respects R (on_ledger (record_data data "status_code"
                              status_code_stat_name tgs))) →
  respects R (get_status_code_data repr_list requests_get instance tags).
Proof.
  intros Hrecord. unfold get_status_code_data.
  apply respects_bind; [apply build_url_respects |]. intros url.
  apply respects_bind; [apply item_respects |]. intros cluster.
  apply respects_bind; [by apply respects_same |]. intros c.
  apply respects_try_except_else; [apply get_stats_respects | |].
  - intros e. apply respects_same. intros w. by destruct e.
  - intros data.
    apply respects_bind; [apply respects_same; intros w; by destruct data |].
    intros _. apply respects_bind; [by apply respects_same |].
    intros content. apply Hrecord.
Qed.

Lemma check_respects instance :
  (∀ content, respects R (new_list content)) →
  (∀ l x, respects R (list_append l x)) →
  (∀ data (tgs : option (list string)),
     respects R (on_ledger (record_data data "status_code"
                              status_code_stat_name tgs))) →
  respects R (check repr_list requests_get instance).
Proof.
  intros Hnew Happend Hrecord. unfold check.
  apply respects_bind; [by apply respects_same |]. intros _.
  apply respects_bind.
  { destruct (instance !! "tags"); [by apply respects_same |].
    apply respects_bind; [apply Hnew |]. intros l. by apply respects_same. }
  intros v. apply respects_bind.
  { apply respects_same. intros w. by destruct v. }
  intros l. apply respects_bind; [apply item_respects |]. intros cluster.
  apply respects_bind; [by apply respects_same |]. intros c.
  apply respects_bind; [apply Happend |]. intros _.
  apply respects_bind; [apply check_connection_respects |]. intros _.
  by apply get_status_code_data_respects.
Qed.

End Respects.

(** A tick leaves the ledger entry of the prefix [cloudant.status_code]
    alone. *)
Lemma check_prefix_entry instance w :
  last_timestamps (check repr_list requests_get instance w).1.2
    !! prefix_of "status_code"
  = last_timestamps w !! prefix_of "status_code".
Proof.
  apply (check_respects
           (λ w w', last_timestamps w' !! prefix_of "status_code"
                    = last_timestamps w !! prefix_of "status_code")).
  - done.
  - intros w1 w2 w3 H12 H23. by rewrite H23.
  - done.
  - done.
  - intros data tgs w1. unfold on_ledger.
    pose proof (record_data_prefix_entry data "status_code"
                  status_code_stat_name tgs (last_timestamps w1)) as H.
    by destruct (record_data data "status_code" status_code_stat_name tgs
                   (last_timestamps w1)) as [[r lt] evs].
Qed.

End CheckProperties.

(** * The check against the specification *)

(** C3. [record_data] never stores an entry under the prefix of its own
    batch: the entry of the prefix is after the call what it was before,
    and every key whose entry the call changed is the prefix followed by a
    dot and the name of a target, a strictly longer string. Hence, on a
    check object that starts with the empty ledger, the batch-level test
    [_should_record_data(prefix, end)] succeeds at every call of
    [record_data] for an endpoint, whatever the calls for that endpoint
    before it were; and in a process that runs ticks of [check], which
    calls [record_data] for the endpoint [status_code] alone, the test
    succeeds in every tick, whatever the instances and the answers of the
    service in the ticks before. *)
Theorem record_data_never_stores_prefix :
  (∀ endpoint_name data f tags (lt : gmap string Z),
     (record_data data endpoint_name f tags lt).1.2 !! prefix_of endpoint_name
     = lt !! prefix_of endpoint_name
     ∧ ∀ k, (record_data data endpoint_name f tags lt).1.2 !! k ≠ lt !! k →
            ∃ suffix, k = prefix_of endpoint_name +:+ "." +:+ suffix
                      ∧ (String.length (prefix_of endpoint_name)
                         < String.length k)%nat)
  ∧ (∀ endpoint_name calls,
       run_calls endpoint_name calls ∅ !! prefix_of endpoint_name = None
       ∧ ∀ end_epoch,
           _should_record_data (run_calls endpoint_name calls ∅)
             (prefix_of endpoint_name) end_epoch = true)
  ∧ (∀ repr_list ticks heap,
       last_timestamps (run_ticks repr_list ticks (__init__ heap))
         !! prefix_of "status_code" = None
       ∧ ∀ end_epoch,
           _should_record_data
             (last_timestamps (run_ticks repr_list ticks (__init__ heap)))
             (prefix_of "status_code") end_epoch = true).
Proof.
  split; [| split].
  - intros endpoint_name data f tags lt.
    split; [apply record_data_prefix_entry |].
    intros k. unfold record_data. destruct data as [data|]; [| done].
    destruct (negb _); [done |].
    destruct (record_responses _ f tags lt (target_responses data))
      as [lt' evs] eqn:H. simpl.
    change lt' with (lt', evs).1. rewrite <- H.
    intros (r & _ & ->)%record_responses_changed.
    exists (f (target r)). split; [done |].
    exact (metric_name_longer (prefix_of endpoint_name) f r).
  - intros endpoint_name calls.
    assert (∀ lt : gmap string Z,
              lt !! prefix_of endpoint_name = None →
              run_calls endpoint_name calls lt !! prefix_of endpoint_name
              = None) as Hrun.
    { induction calls as [|c calls IH]; intros lt Hlt; [done |].
      simpl. apply IH. by rewrite record_data_prefix_entry. }
    split; [by apply Hrun |].
    intros end_epoch. apply should_record_absent. by apply Hrun.
  - intros repr_list ticks heap.
    assert (∀ w, last_timestamps w !! prefix_of "status_code" = None →
                 last_timestamps (run_ticks repr_list ticks w)
                   !! prefix_of "status_code" = None) as Hrun.
    { induction ticks as [|t ticks IH]; intros w Hw; [done |].
      simpl. apply IH. by rewrite check_prefix_entry. }
    split; [by apply Hrun |].
    intros end_epoch. apply should_record_absent. by apply Hrun.
Qed.

(** C7. When the metrics request returns [None], [get_status_code_data]
    logs the warning and goes on to call [record_data] with [None], which
    raises a TypeError at [data['end']]: no metric is submitted, but the
    call, and with it the tick, ends with that exception instead of
    completing. *)
Theorem get_status_code_data_payload_none :
  (∀ repr_list requests_get (instance : gmap string pyval) tags w url,
     _build_url repr_list "rate/status_code" instance w
     = (Returned url, w, []) →
     (_get_stats requests_get url instance w).1.1 = Returned None →
     get_status_code_data repr_list requests_get instance tags w
     = (Raised (TypeError "'NoneType' object has no attribute '__getitem__'"),
        w,
        [LogDebug ("Fetching Cloudant stats at url: " +:+ url);
         Warning ("No stats could be retrieved from " +:+ url)]))
  ∧ (let result :=
       check no_repr (always (Returned None)) instance_c1 (__init__ ∅) in
     result.1.1
     = Raised (TypeError "'NoneType' object has no attribute '__getitem__'")
     ∧ gauges result.2 = []
     ∧ warnings result.2
       = [Warning "No stats could be retrieved from https://u.cloudant.com/_api/v2/monitoring/rate/status_code?cluster=c1"]).
Proof.
  split.
  - intros. by apply get_status_code_data_none.
  - vm_compute. repeat split.
Qed.

(** C8. One tick changes the tag list of the instance: [check] takes the
    list object stored under [tags] and appends the cluster tag to it in
    place, so that the list is one element longer after the call, whatever
    the requests answer, and grows again at every tick. *)
Theorem check_appends_to_instance_tags :
  (∀ repr_list requests_get (instance : gmap string pyval) l v w,
     _validate_instance instance = Returned () →
     instance !! "tags" = Some (PList l) →
     instance !! "cluster" = Some v →
     heap (check repr_list requests_get instance w).1.2 !!! l
     = (heap w !!! l) ++ ["cluster:" +:+ str_of repr_list (heap w) v])
  ∧ (let instance := <["tags" := PList 1%positive]> instance_c1 in
     let requests_get :=
       always (Returned (Some (single_target 100 [(Some 5, 90)]))) in
     let w := __init__ {[ 1%positive := ["env:prod"] ]} in
     let tick1 := check no_repr requests_get instance w in
     let tick2 := check no_repr requests_get instance tick1.1.2 in
     tick1.1.1 = Returned ()
     ∧ heap w !!! 1%positive = ["env:prod"]
     ∧ heap tick1.1.2 !!! 1%positive = ["env:prod"; "cluster:c1"]
     ∧ heap tick2.1.2 !!! 1%positive
       = ["env:prod"; "cluster:c1"; "cluster:c1"]).
Proof.
  split.
  - intros repr_list requests_get instance l v w Hv Ht Hc.
    rewrite (check_heap repr_list requests_get instance l v w Hv Ht Hc).
    by rewrite lookup_total_insert_eq.
  - vm_compute. repeat split.
Qed.

(** C9 does not hold as the specification states it: on an instance that passes
    validation and has a key [endpoint], [check_connection] raises the
    TypeError of the URL template before the request is tried, and no
    service check is submitted. *)
Lemma check_connection_without_service_check :
  let instance := <["endpoint" := PStr "uptime"]> instance_c1 in
  let result :=
    check_connection no_repr (always (Returned None)) instance 1%positive
      (__init__ {[ 1%positive := ["cluster:c1"] ]}) in
  _validate_instance instance = Returned ()
  ∧ result.1.1
    = Raised (TypeError
        "format() got multiple values for keyword argument 'endpoint'")
  ∧ service_checks result.2 = []
  ∧ ¬ (∀ repr_list requests_get (instance : gmap string pyval) tags w,
         length (service_checks
                   (check_connection repr_list requests_get instance tags
                      w).2) = 1%nat).
Proof.
  repeat split; [done .. |].
  intros H.
  specialize (H no_repr (always (Returned None))
                (<["endpoint" := PStr "uptime"]> instance_c1) 1%positive
                (__init__ ∅)).
  by vm_compute in H.
Qed.

(** C9, amended. A call of [check_connection] leaves the ledger and the
    store alone. When the URL of the liveness endpoint cannot be built, the
    exception of the template is raised and no service check is submitted.
    Otherwise exactly one service check is submitted, as the last event of
    the call: in state OK with the success message when the request
    returns, the call returning normally; in state CRITICAL with the error
    detail when the request raises, whether a timeout, an HTTP error or any
    other exception, the call ending with that same exception. *)
Theorem check_connection_one_service_check repr_list requests_get
    (instance : gmap string pyval) tags w :
  let result := check_connection repr_list requests_get instance tags w in
  result.1.2 = w
  ∧ match _build_url repr_list "uptime" instance w with
    | (Raised e, _, _) =>
        result.1.1 = Raised e ∧ service_checks result.2 = []
    | (Returned url, _, _) =>
        match (_get_stats requests_get url instance w).1.1 with
        | Returned _ =>
            result.1.1 = Returned ()
            ∧ service_checks result.2
              = [ServiceCheck SERVICE_CHECK_NAME OK (heap w !!! tags)
                   ("Connection to " +:+ url +:+ " was successful")]
            ∧ last result.2 = head (service_checks result.2)
        | Raised e =>
            result.1.1 = Raised e
            ∧ service_checks result.2
              = [ServiceCheck SERVICE_CHECK_NAME CRITICAL (heap w !!! tags)
                   (critical_message url e)]
            ∧ last result.2 = head (service_checks result.2)
        end
    end.
Proof.
  cbv zeta. split; [apply check_connection_frame |].
  destruct (build_url_frame repr_list "uptime" instance w) as [[url|e] Hb];
    rewrite Hb.
  - destruct (_get_stats requests_get url instance w).1.1 as [a|e] eqn:Hg.
    + by rewrite (check_connection_ok repr_list requests_get instance tags
                    w url a).
    + by rewrite (check_connection_critical repr_list requests_get instance
                    tags w url e).
  - by rewrite (check_connection_no_url repr_list requests_get instance
                  tags w e).
Qed.

(** * Further properties *)

(** For a key whose stored epoch is other than 0, [_should_record_data]
    answers true exactly for the epochs that exceed the stored one. *)
Theorem should_record_data_stored_nonzero (lt : gmap string Z) key E epoch :
  lt !! key = Some E → E ≠ 0 →
  _should_record_data lt key epoch = true ↔ epoch > E.
Proof.
  intros H HE. rewrite (should_record_stored lt key E epoch H HE). lia.
Qed.

Lemma should_record_data_stored_nonzero_witness :
  ({[ "cloudant.status_code./a" := 90 ]} : gmap string Z)
    !! "cloudant.status_code./a" = Some 90
  ∧ 90 ≠ 0
  ∧ (_should_record_data {[ "cloudant.status_code./a" := 90 ]}
       "cloudant.status_code./a" 100 = true ↔ 100 > 90).
Proof.
  split; [reflexivity |]. split; [discriminate |].
  apply (should_record_data_stored_nonzero
           {[ "cloudant.status_code./a" := 90 ]} "cloudant.status_code./a"
           90 100); [reflexivity | discriminate].
Defined.

(** Replaying a batch in which no datapoint carries the epoch 0: the second
    call returns normally, submits no gauge and leaves the ledger as the
    first call left it, whatever the ledger was before the first call. *)
Theorem record_data_replay_nonzero_epochs data endpoint_name f tags
    (lt : gmap string Z) :
  nonzero_epochs data = true →
  let first := record_data (Some data) endpoint_name f tags lt in
  let second := record_data (Some data) endpoint_name f tags first.1.2 in
  second.1.1 = Returned () ∧ gauges second.2 = [] ∧ second.1.2 = first.1.2.
Proof.
  intros Hnz. cbv zeta.
  by destruct (record_data_replay data endpoint_name f tags lt Hnz) as [-> | ->].
Qed.

Lemma record_data_replay_nonzero_epochs_witness :
  let data := single_target 100 [(Some 5, 90); (None, 95); (Some 6, 80)] in
  let first :=
    record_data (Some data) "status_code" status_code_stat_name None ∅ in
  let second :=
    record_data (Some data) "status_code" status_code_stat_name None
      first.1.2 in
  nonzero_epochs data = true
  ∧ second.1.1 = Returned () ∧ gauges second.2 = [] ∧ second.1.2 = first.1.2.
Proof.
  split; [reflexivity |].
  apply (record_data_replay_nonzero_epochs
           (single_target 100 [(Some 5, 90); (None, 95); (Some 6, 80)])
           "status_code" status_code_stat_name None ∅).
  reflexivity.
Defined.

(** A recorded epoch that is positive never decreases in a call of
    [record_data], and every gauge the call submits under that metric name
    carries a timestamp that exceeds it. *)
Theorem record_data_positive_epoch data endpoint_name f tags
    (lt : gmap string Z) k E :
  lt !! k = Some E → 0 < E →
  (∃ E', (record_data data endpoint_name f tags lt).1.2 !! k = Some E'
         ∧ E ≤ E')
  ∧ ∀ v tg ts,
      Gauge k v tg ts ∈ (record_data data endpoint_name f tags lt).2 → E < ts.
Proof.
  intros H HE. unfold record_data. destruct data as [data|].
  2: { split; [by exists E | by intros v tg ts ?%elem_of_nil]. }
  destruct (negb _).
  { split; [by exists E |].
    intros v tg ts [? | ?%elem_of_nil]%elem_of_cons; done. }
  pose proof (record_responses_mono (prefix_of endpoint_name) f tags lt
                (target_responses data) k E H HE) as Hmono.
  pose proof (record_responses_gauge_fresh (prefix_of endpoint_name) f tags lt
                (target_responses data) k E) as Hfresh.
  destruct (record_responses _ f tags lt (target_responses data))
    as [lt' evs].
  split; [done |]. intros v tg ts. by apply Hfresh.
Qed.

Lemma record_data_positive_epoch_witness :
  let name := "cloudant.status_code./a" in
  let lt : gmap string Z := {[ name := 90 ]} in
  let result :=
    record_data (Some (single_target 200 [(Some 5, 80); (Some 6, 95)]))
      "status_code" status_code_stat_name None lt in
  lt !! name = Some 90 ∧ 0 < 90
  ∧ (∃ E', result.1.2 !! name = Some E' ∧ 90 ≤ E')
  ∧ ∀ v tg ts, Gauge name v tg ts ∈ result.2 → 90 < ts.
Proof.
  split; [reflexivity |]. split; [reflexivity |].
  apply (record_data_positive_epoch
           (Some (single_target 200 [(Some 5, 80); (Some 6, 95)]))
           "status_code" status_code_stat_name None
           {[ "cloudant.status_code./a" := 90 ]}
           "cloudant.status_code./a" 90); reflexivity.
Defined.

(** An HTTP error of the metrics request is swallowed: a warning is logged,
    the call returns normally, no gauge is submitted and the ledger and the
    store stay as they were. *)
Theorem get_status_code_data_http_error repr_list requests_get
    (instance : gmap string pyval) tags w url message :
  _build_url repr_list "rate/status_code" instance w = (Returned url, w, []) →
  (_get_stats requests_get url instance w).1.1
  = Raised (RequestsHTTPError message) →
  get_status_code_data repr_list requests_get instance tags w
  = (Returned (), w,
     [LogDebug ("Fetching Cloudant stats at url: " +:+ url);
      Warning ("Error reading data from URL: " +:+ url)]).
Proof.
  intros Hb Hg.
  destruct (build_url_cluster repr_list _ _ _ _ _ _ Hb) as [c Hc].
  unfold get_status_code_data, bind. rewrite Hb.
  unfold item. rewrite Hc. unfold ret, format, try_except_else.
  destruct (get_stats_frame requests_get url instance w) as [r Hr].
  rewrite Hr in Hg |- *. simpl in Hg. by subst r.
Qed.

Lemma get_status_code_data_http_error_witness :
  let url :=
    "https://u.cloudant.com/_api/v2/monitoring/rate/status_code?cluster=c1" in
  let requests_get := always (Raised (RequestsHTTPError "500 Server Error")) in
  let w := __init__ {[ 1%positive := ["cluster:c1"] ]} in
  _build_url no_repr "rate/status_code" instance_c1 w = (Returned url, w, [])
  ∧ (_get_stats requests_get url instance_c1 w).1.1
    = Raised (RequestsHTTPError "500 Server Error")
  ∧ get_status_code_data no_repr requests_get instance_c1 1%positive w
    = (Returned (), w,
       [LogDebug ("Fetching Cloudant stats at url: " +:+ url);
        Warning ("Error reading data from URL: " +:+ url)]).
Proof.
  split; [reflexivity |]. split; [reflexivity |].
  apply (get_status_code_data_http_error no_repr
           (always (Raised (RequestsHTTPError "500 Server Error")))
           instance_c1 1%positive
           (__init__ {[ 1%positive := ["cluster:c1"] ]})
           "https://u.cloudant.com/_api/v2/monitoring/rate/status_code?cluster=c1"
           "500 Server Error"); reflexivity.
Defined.

(** * The remaining methods *)

(** ** The target transform *)

Lemma split1_cases (sep : Ascii.ascii) (s : string) :
  (contains sep s = false ∧ Py.split1 sep s = [s])
  ∨ ∃ a b, contains sep a = false ∧ s = a +:+ String sep b
           ∧ Py.split1 sep s = [a; b].
Proof.
  induction s as [|c s IH]; [by left |]. simpl.
  destruct (Ascii.eqb_spec c sep) as [->|Hne]; simpl.
  - right. by exists EmptyString, s.
  - destruct IH as [[Hno ->] | (a & b & Hno & -> & ->)].
    + by left.
    + right. exists (String c a), b. simpl.
      destruct (Ascii.eqb_spec c sep); [done |]. by rewrite Hno.
Qed.

(** [' '.join(target.split(' ', 1)) == target], and the transform that
    [get_status_code_data] passes keeps a target without a space as it is
    and a suffix of the target otherwise. *)
Theorem split1_join (sep : Ascii.ascii) (s : string) :
  Py.join (String sep EmptyString) (Py.split1 sep s) = s
  ∧ (contains " " s = false → status_code_stat_name s = s)
  ∧ ∃ before, s = before +:+ status_code_stat_name s.
Proof.
  split; [| split].
  - by destruct (split1_cases sep s) as [[_ ->] | (a & b & _ & -> & ->)].
  - intros Hno. unfold status_code_stat_name.
    destruct (split1_cases " " s) as [[_ ->] | (a & b & _ & -> & _)];
      [done |].
    exfalso. clear -Hno. induction a as [|c a IH]; simpl in *; [done |].
    destruct (Ascii.eqb c " "); [done | by apply IH].
  - unfold status_code_stat_name.
    destruct (split1_cases " " s) as [[_ ->] | (a & b & _ & Hs & ->)].
    + by exists EmptyString.
    + exists (a +:+ " "). simpl. rewrite Hs. clear.
      induction a as [|c a IH]; [done |].
      change (String c (a +:+ String " " b) = String c ((a +:+ " ") +:+ b)).
      by f_equal.
Qed.

(** A target made of a word without a space, a space and a rest is mapped
    to the rest, whatever spaces the rest holds. *)
Theorem status_code_stat_name_strips_first_word (verb rest : string) :
  contains " " verb = false →
  status_code_stat_name (verb +:+ " " +:+ rest) = rest.
Proof.
  intros Hno. unfold status_code_stat_name.
  assert (Py.split1 " " (verb +:+ " " +:+ rest) = [verb; rest]) as ->; [| done].
  induction verb as [|c verb IH]; [done |]. simpl in *.
  destruct (Ascii.eqb c " "); [done |]. by rewrite IH.
Qed.

Lemma status_code_stat_name_strips_first_word_witness :
  contains " " "GET" = false
  ∧ status_code_stat_name ("GET" +:+ " " +:+ "/db/_all docs") = "/db/_all docs".
Proof.
  split; [reflexivity |].
  apply (status_code_stat_name_strips_first_word "GET" "/db/_all docs").
  reflexivity.
Defined.

(** ** Validation and URLs *)

(** [_validate_instance] returns exactly when the instance has the keys
    [cluster], [username] and [password]; otherwise it raises the exception
    that names the first of them, in this order, that is missing. *)
Theorem validate_instance_first_missing (instance : gmap string pyval) :
  (_validate_instance instance = Returned ()
   ↔ is_Some (instance !! "cluster") ∧ is_Some (instance !! "username")
     ∧ is_Some (instance !! "password"))
  ∧ (instance !! "cluster" = None →
     _validate_instance instance
     = Raised (Exception "A cluster must be specified"))
  ∧ (is_Some (instance !! "cluster") → instance !! "username" = None →
     _validate_instance instance
     = Raised (Exception "A username must be specified"))
  ∧ (is_Some (instance !! "cluster") → is_Some (instance !! "username") →
     instance !! "password" = None →
     _validate_instance instance
     = Raised (Exception "A password must be specified")).
Proof.
  unfold _validate_instance. simpl.
  destruct (instance !! "cluster") as [c|];
    destruct (instance !! "username") as [u|];
    destruct (instance !! "password") as [p|];
    repeat split; try done; try (by intros [? ?]); try (by intros _ [? ?]);
    try (by intros _ _ [? ?]); try (by intros (_ & _ & [? ?]));
    try (by intros (_ & [? ?] & _)); try (by intros ([? ?] & _ & _));
    by eauto.
Qed.

(** [_build_url] reads nothing but the keys [endpoint], [username] and
    [cluster], leaves the world alone and logs nothing. A key [endpoint]
    makes it raise a TypeError; otherwise a missing [username], and then a
    missing [cluster], makes it raise the KeyError of that key; otherwise it
    returns the template filled with the username, the endpoint and the
    cluster. The password is not part of the URL. *)
Theorem build_url_cases repr_list endpoint (instance : gmap string pyval) w :
  _build_url repr_list endpoint instance w
  = (match instance !! "endpoint", instance !! "username",
           instance !! "cluster" with
     | Some _, _, _ =>
         Raised (TypeError
           "format() got multiple values for keyword argument 'endpoint'")
     | None, None, _ => Raised (KeyError "username")
     | None, Some _, None => Raised (KeyError "cluster")
     | None, Some u, Some c =>
         Returned (URL_TEMPLATE (str_of repr_list (heap w) u) endpoint
                     (str_of repr_list (heap w) c))
     end, w, []).
Proof.
  unfold _build_url. destruct (instance !! "endpoint"); [done |].
  unfold bind, item, format, ret, raise.
  destruct (instance !! "username"); [| done].
  by destruct (instance !! "cluster").
Qed.

Lemma validate_instance_keys (instance : gmap string pyval) :
  _validate_instance instance = Returned () →
  ∃ c u p, instance !! "cluster" = Some c ∧ instance !! "username" = Some u
           ∧ instance !! "password" = Some p.
Proof.
  unfold _validate_instance. simpl.
  destruct (instance !! "cluster") as [c|]; [| done].
  destruct (instance !! "username") as [u|]; [| done].
  destruct (instance !! "password") as [p|]; [| done].
  by exists c, u, p.
Qed.

(** On an instance that passed validation and has no key [endpoint], the
    URL of every endpoint is built. *)
Lemma build_url_valid repr_list endpoint (instance : gmap string pyval) w :
  _validate_instance instance = Returned () →
  instance !! "endpoint" = None →
  _build_url repr_list endpoint instance w
  = (Returned (url_of repr_list endpoint instance w), w, []).
Proof.
  intros (c & u & p & Hc & Hu & Hp)%validate_instance_keys He.
  unfold _build_url, url_of, bind, item, format, ret.
  by rewrite He, Hu, Hc.
Qed.

(** ** What a call of [record_data] submits and records *)

(** Induction over the datapoints of a target, iteration by iteration. *)
Ltac by_datapoints dps lt :=
  let v := fresh "v" in
  let epoch := fresh "epoch" in
  revert lt; induction dps as [|[[v|] epoch] dps IH]; intros lt;
  [ | match goal with
      | |- context [record_datapoints ?name _ lt ((Some _, ?e) :: _)] =>
          destruct (_should_record_data lt name e) eqn:Hrec;
          [ rewrite record_datapoints_new by done
          | rewrite record_datapoints_old by done ]
      end
    | rewrite record_datapoints_null ].

Section RecordDataProperties.

Implicit Types (lt : gmap string Z) (name prefix : string)
  (tags : option (list string)) (dps : list (option Z * Z))
  (rs : list TargetResponse) (f : string → string).

Lemma gauges_cons_log msg (evs : list Event) :
  gauges (LogInfo msg :: evs) = gauges evs.
Proof. reflexivity. Qed.

Lemma gauges_cons_gauge n v tg ts (evs : list Event) :
  gauges (Gauge n v tg ts :: evs) = Gauge n v tg ts :: gauges evs.
Proof. reflexivity. Qed.

Lemma gauges_app (evs evs' : list Event) :
  gauges (evs ++ evs') = gauges evs ++ gauges evs'.
Proof. apply filter_app. Qed.

Lemma last_gauge_ts_app name (evs evs' : list Event) :
  last_gauge_ts name (evs ++ evs')
  = match last_gauge_ts name evs' with
    | Some ts => Some ts
    | None => last_gauge_ts name evs
    end.
Proof.
  induction evs as [|ev evs IH]; simpl.
  - by destruct (last_gauge_ts name evs').
  - rewrite IH. by destruct (last_gauge_ts name evs').
Qed.

Lemma record_datapoints_ledger name0 tags lt dps name :
  (record_datapoints name0 tags lt dps).1 !! name
  = match last_gauge_ts name (record_datapoints name0 tags lt dps).2 with
    | Some ts => Some ts
    | None => lt !! name
    end.
Proof.
  by_datapoints dps lt; cbn [fst snd]; [done | | done | done].
  rewrite IH. cbn [last_gauge_ts].
  destruct (last_gauge_ts name _) as [ts|]; [done |].
  destruct (decide (name0 = name)) as [->|Hne].
  - apply lookup_insert_eq.
  - by apply lookup_insert_ne.
Qed.

Lemma record_responses_ledger prefix f tags lt rs name :
  (record_responses prefix f tags lt rs).1 !! name
  = match last_gauge_ts name (record_responses prefix f tags lt rs).2 with
    | Some ts => Some ts
    | None => lt !! name
    end.
Proof.
  revert lt. induction rs as [|r rs IH]; intros lt; [done |].
  rewrite record_responses_cons. cbn [fst snd].
  rewrite IH, last_gauge_ts_app, record_datapoints_ledger.
  by destruct (last_gauge_ts name (record_responses _ _ _ _ _).2).
Qed.

(** After a call of [record_data] the ledger holds, for every metric name,
    the timestamp of the last gauge that the call submitted under that
    name, and the entry from before the call if it submitted none: the
    ledger is written together with a submission and never without one. *)
Theorem record_data_records_last_gauge data endpoint_name f tags lt name :
  (record_data data endpoint_name f tags lt).1.2 !! name
  = match last_gauge_ts name (record_data data endpoint_name f tags lt).2 with
    | Some ts => Some ts
    | None => lt !! name
    end.
Proof.
  unfold record_data. destruct data as [data|]; [| done].
  destruct (negb _); [done |].
  pose proof (record_responses_ledger (prefix_of endpoint_name) f tags lt
                (target_responses data) name) as H.
  by destruct (record_responses _ f tags lt (target_responses data)).
Qed.

(** *** Batches that arrive in order *)

Lemma record_datapoints_increasing name tags lt dps :
  increasing_after (lt !! name) dps = true →
  gauges (record_datapoints name tags lt dps).2 = expected_gauges name tags dps.
Proof.
  revert lt. induction dps as [|[[v|] epoch] dps IH]; intros lt H; [done | |].
  - simpl in H. apply andb_prop in H as [H1 H2].
    rewrite record_datapoints_new.
    + cbn [snd]. rewrite gauges_cons_log, gauges_cons_gauge.
      cbn [expected_gauges]. f_equal. apply IH.
      by rewrite lookup_insert_eq.
    + apply should_record_true.
      destruct (lt !! name) as [p|]; [| by left].
      right; right. exists p. split; [done |]. by apply Z.ltb_lt.
  - rewrite record_datapoints_null. by apply IH.
Qed.

Lemma record_responses_increasing prefix f tags lt rs :
  NoDup (map (metric_name_of prefix f) rs) →
  Forall (λ r, increasing_after (lt !! metric_name_of prefix f r)
                 (datapoints r) = true) rs →
  gauges (record_responses prefix f tags lt rs).2
  = all_expected_gauges prefix f tags rs.
Proof.
  revert lt. induction rs as [|r rs IH]; intros lt Hnd Hall; [done |].
  rewrite map_cons in Hnd. apply NoDup_cons in Hnd as [Hr Hnd].
  apply Forall_cons in Hall as [Hhead Hall].
  rewrite record_responses_cons. cbn [fst snd all_expected_gauges].
  rewrite gauges_app. f_equal; [by apply record_datapoints_increasing |].
  apply IH; [done |].
  apply Forall_forall. intros r' Hr'.
  rewrite record_datapoints_other.
  - by apply (proj1 (Forall_forall _ _) Hall).
  - intros Heq. apply Hr. rewrite <- Heq. by apply list_elem_of_fmap_2.
Qed.

(** When the batch passes the gate, its targets map to different metric
    names and, for each target, the epochs of the datapoints that have a
    value increase strictly from the recorded epoch of its metric name on
    (or the name has no record), then every datapoint that has a value is
    submitted: the gauges of the call are the datapoints with a value, in
    the order of the response. *)
Theorem record_data_submits_in_order data endpoint_name f tags lt :
  _should_record_data lt (prefix_of endpoint_name) (end_ data) = true →
  NoDup (map (metric_name_of (prefix_of endpoint_name) f)
           (target_responses data)) →
  Forall (λ r, increasing_after
                 (lt !! metric_name_of (prefix_of endpoint_name) f r)
                 (datapoints r) = true) (target_responses data) →
  gauges (record_data (Some data) endpoint_name f tags lt).2
  = all_expected_gauges (prefix_of endpoint_name) f tags
      (target_responses data).
Proof.
  intros Hgate Hnd Hall. unfold record_data. rewrite Hgate. cbn [negb].
  pose proof (record_responses_increasing (prefix_of endpoint_name) f tags lt
                (target_responses data) Hnd Hall) as H.
  by destruct (record_responses _ f tags lt (target_responses data)).
Qed.

(** *** Timestamps under one name *)

Lemma gauge_timestamps_app name (evs evs' : list Event) :
  gauge_timestamps name (evs ++ evs')
  = gauge_timestamps name evs ++ gauge_timestamps name evs'.
Proof.
  induction evs as [|[n v tg ts| | | |] evs IH]; simpl; try done.
  destruct (decide (n = name)); [by rewrite IH | done].
Qed.

Lemma ordered_nil name lt : ordered name lt [] lt.
Proof. repeat split; [constructor | constructor | done]. Qed.

Lemma ordered_app name lt lt1 lt2 (evs1 evs2 : list Event) :
  ordered name lt evs1 lt1 → ordered name lt1 evs2 lt2 →
  ordered name lt (evs1 ++ evs2) lt2.
Proof.
  intros (Hs1 & Hb1 & Hf1) (Hs2 & Hb2 & Hf2).
  rewrite Forall_forall in Hb1, Hb2.
  unfold ordered. rewrite gauge_timestamps_app. repeat split.
  - apply StronglySorted_app_2; [| done | done].
    intros t1 t2 Ht1 Ht2.
    destruct (Hb1 t1 Ht1) as [_ ?]. destruct (Hb2 t2 Ht2) as [? _]. lia.
  - apply Forall_app. split; apply Forall_forall; intros t Ht.
    + destruct (Hb1 t Ht). lia.
    + destruct (Hb2 t Ht). lia.
  - lia.
Qed.

Lemma record_datapoints_ordered name0 tags lt dps name :
  forallb positive_epoch dps = true →
  ordered name lt (record_datapoints name0 tags lt dps).2
    (record_datapoints name0 tags lt dps).1.
Proof.
  by_datapoints dps lt; cbn [fst snd]; intros Hpos.
  - apply ordered_nil.
  - apply andb_prop in Hpos as [Hpos1 Hpos2].
    unfold positive_epoch in Hpos1. cbn in Hpos1.
    apply Z.ltb_lt in Hpos1.
    destruct (IH (<[name0 := epoch]> lt) Hpos2) as (Hs & Hb & Hf).
    rewrite Forall_forall in Hb.
    unfold ordered. cbn [gauge_timestamps].
    destruct (decide (name0 = name)) as [->|Hne].
    + assert (floor name (<[name := epoch]> lt) = epoch) as Hfloor.
      { unfold floor. rewrite lookup_insert_eq. lia. }
      rewrite Hfloor in Hb, Hf.
      assert (floor name lt < epoch) as Hlow.
      { unfold floor. apply should_record_true in Hrec.
        destruct Hrec as [-> | [-> | (E & -> & ?)]]; lia. }
      repeat split.
      * apply SSorted_cons; [done |].
        apply Forall_forall. intros t Ht. by destruct (Hb t Ht).
      * apply Forall_cons. split; [lia |].
        apply Forall_forall. intros t Ht. destruct (Hb t Ht). lia.
      * lia.
    + assert (floor name (<[name0 := epoch]> lt) = floor name lt) as Hfloor.
      { unfold floor. by rewrite lookup_insert_ne. }
      rewrite Hfloor in Hb, Hf.
      repeat split; [done | by apply Forall_forall | done].
  - apply andb_prop in Hpos as [_ Hpos2]. by apply IH.
  - by apply IH.
Qed.

Lemma record_responses_ordered prefix f tags lt rs name :
  forallb (λ r, forallb positive_epoch (datapoints r)) rs = true →
  ordered name lt (record_responses prefix f tags lt rs).2
    (record_responses prefix f tags lt rs).1.
Proof.
  revert lt. induction rs as [|r rs IH]; intros lt Hpos; [apply ordered_nil |].
  apply andb_prop in Hpos as [Hpos1 Hpos2].
  rewrite record_responses_cons. cbn [fst snd].
  eapply ordered_app; [by apply record_datapoints_ordered | by apply IH].
Qed.

(** When every datapoint that has a value carries a positive epoch, the
    gauges that a call of [record_data] submits under one metric name carry
    strictly increasing timestamps, each of them above the epoch recorded
    for the name before the call and none above the epoch recorded after
    it: no timestamp is submitted twice or out of order. *)
Theorem record_data_timestamps_increase data endpoint_name f tags lt name :
  positive_epochs data = true →
  let result := record_data (Some data) endpoint_name f tags lt in
  StronglySorted Z.lt (gauge_timestamps name result.2)
  ∧ Forall (λ t, floor name lt < t ∧ t ≤ floor name result.1.2)
      (gauge_timestamps name result.2).
Proof.
  intros Hpos. cbv zeta. unfold record_data.
  destruct (negb _); [by split; constructor |].
  pose proof (record_responses_ordered (prefix_of endpoint_name) f tags lt
                (target_responses data) name Hpos) as (Hs & Hb & _).
  by destruct (record_responses _ f tags lt (target_responses data)).
Qed.

End RecordDataProperties.

Lemma record_data_submits_in_order_witness :
  let data :=
    {| end_ := 200;
       target_responses :=
         [ {| target := "GET /a";
              datapoints := [(Some 5, 90); (None, 95); (Some 6, 100)] |};
           {| target := "PUT /b"; datapoints := [(Some 1, 90)] |} ] |} in
  let lt : gmap string Z := {[ "cloudant.status_code./a" := 80 ]} in
  _should_record_data lt (prefix_of "status_code") (end_ data) = true
  ∧ NoDup (map (metric_name_of (prefix_of "status_code")
                  status_code_stat_name) (target_responses data))
  ∧ Forall (λ r, increasing_after
                   (lt !! metric_name_of (prefix_of "status_code")
                            status_code_stat_name r)
                   (datapoints r) = true) (target_responses data)
  ∧ gauges (record_data (Some data) "status_code" status_code_stat_name
              (Some ["cluster:c1"]) lt).2
    = [Gauge "cloudant.status_code./a" 5 ["cluster:c1"] 90;
       Gauge "cloudant.status_code./a" 6 ["cluster:c1"] 100;
       Gauge "cloudant.status_code./b" 1 ["cluster:c1"] 90].
Proof.
  cbv zeta.
  assert (NoDup (map (metric_name_of (prefix_of "status_code")
                        status_code_stat_name)
                   [ {| target := "GET /a";
                        datapoints := [(Some 5, 90); (None, 95); (Some 6, 100)] |};
                     {| target := "PUT /b"; datapoints := [(Some 1, 90)] |} ]))
    as Hnd.
  { apply (bool_decide_unpack _). vm_compute. exact I. }
  assert (_should_record_data {[ "cloudant.status_code./a" := 80 ]}
            (prefix_of "status_code") 200 = true) as Hgate
    by (vm_compute; reflexivity).
  split; [exact Hgate |]. split; [exact Hnd |].
  assert (∀ A B : Prop, A → (A → B) → A ∧ B) as Hstep by tauto.
  apply Hstep.
  - repeat constructor.
  - intros Hall.
    rewrite (record_data_submits_in_order
               {| end_ := 200;
                  target_responses :=
                    [ {| target := "GET /a";
                         datapoints :=
                           [(Some 5, 90); (None, 95); (Some 6, 100)] |};
                      {| target := "PUT /b"; datapoints := [(Some 1, 90)] |} ] |}
               "status_code" status_code_stat_name (Some ["cluster:c1"])
               {[ "cloudant.status_code./a" := 80 ]} Hgate Hnd Hall).
    reflexivity.
Defined.

Lemma record_data_timestamps_increase_witness :
  let data :=
    single_target 200 [(Some 5, 90); (Some 6, 85); (Some 7, 100); (Some 8, 100)] in
  let result :=
    record_data (Some data) "status_code" status_code_stat_name None
      {[ "cloudant.status_code./a" := 80 ]} in
  positive_epochs data = true
  ∧ StronglySorted Z.lt (gauge_timestamps "cloudant.status_code./a" result.2)
  ∧ Forall (λ t, floor "cloudant.status_code./a"
                   {[ "cloudant.status_code./a" := 80 ]} < t
                 ∧ t ≤ floor "cloudant.status_code./a" result.1.2)
      (gauge_timestamps "cloudant.status_code./a" result.2).
Proof.
  split; [reflexivity |].
  apply (record_data_timestamps_increase
           (single_target 200
              [(Some 5, 90); (Some 6, 85); (Some 7, 100); (Some 8, 100)])
           "status_code" status_code_stat_name None
           {[ "cloudant.status_code./a" := 80 ]} "cloudant.status_code./a").
  reflexivity.
Defined.

(** ** One tick *)

Section TickProperties.

Variable repr_list : list string → string.
Variable requests_get :
  string → pyval * pyval → pyval → outcome (option StatsResponse).

Implicit Types (instance : gmap string pyval) (w : World).

Lemma lookup_total_fresh (h : gmap loc (list string)) :
  h !!! fresh (dom h) = [].
Proof.
  rewrite lookup_total_alt.
  assert (h !! fresh (dom h) = None) as ->; [| done].
  apply not_elem_of_dom, is_fresh.
Qed.

(** Printing a value is not affected by a new, empty list object. *)
Lemma str_of_new_list (h : gmap loc (list string)) v :
  str_of repr_list (<[fresh (dom h) := []]> h) v = str_of repr_list h v.
Proof.
  destruct v as [s|n|l]; [done | done |]. simpl.
  destruct (decide (l = fresh (dom h))) as [->|Hne].
  - by rewrite lookup_total_insert_eq, lookup_total_fresh.
  - by rewrite lookup_total_insert_ne.
Qed.

Lemma tick_start_tags instance w :
  heap (tick_start repr_list instance w) !!! tick_list instance w
  = tick_tags repr_list instance w.
Proof. unfold tick_start. simpl. apply lookup_total_insert_eq. Qed.

Lemma runnable_keys instance :
  runnable instance = true →
  _validate_instance instance = Returned ()
  ∧ instance !! "endpoint" = None
  ∧ (instance !! "tags" = None ∨ ∃ l, instance !! "tags" = Some (PList l)).
Proof.
  unfold runnable. intros H.
  apply andb_prop in H as [H Ht]. apply andb_prop in H as [Hv He].
  destruct (_validate_instance instance) as [[]|]; [| done].
  destruct (instance !! "endpoint"); [done |].
  destruct (instance !! "tags") as [[| |l]|]; try done.
  - split; [done |]. split; [done |]. right. by exists l.
  - split; [done |]. split; [done |]. by left.
Qed.

(** Steps that submit nothing, and steps that raise. *)
Lemma bind_pure {A B} (c : M A) (k : A → M B) w a w' :
  c w = (Returned a, w', []) → bind c k w = k a w'.
Proof.
  intros H. unfold bind. rewrite H. by destruct (k a w') as [[r w''] evs].
Qed.

Lemma bind_raised {A B} (c : M A) (k : A → M B) w e w' evs :
  c w = (Raised e, w', evs) → bind c k w = (Raised e, w', evs).
Proof. intros H. unfold bind. by rewrite H. Qed.

Lemma bind_returned {A B} (c : M A) (k : A → M B) w a w' evs :
  c w = (Returned a, w', evs) →
  bind c k w = ((k a w').1.1, (k a w').1.2, evs ++ (k a w').2).
Proof.
  intros H. unfold bind. rewrite H. by destruct (k a w') as [[r w''] evs'].
Qed.

(** A tick on a runnable instance appends the cluster tag and then probes
    the connection and fetches the metrics. *)
Lemma check_eq instance w :
  runnable instance = true →
  check repr_list requests_get instance w
  = bind (check_connection repr_list requests_get instance
            (tick_list instance w))
      (λ _, get_status_code_data repr_list requests_get instance
              (tick_list instance w))
      (tick_start repr_list instance w).
Proof.
  intros (Hv & He & Ht)%runnable_keys.
  destruct (validate_instance_keys instance Hv) as (c & u & p & Hc & Hu & Hp).
  unfold check, tick_start, tick_list, tick_tags.
  rewrite (bind_pure _ _ w () w) by (unfold lift; by rewrite Hv).
  destruct Ht as [Ht | [l Ht]]; rewrite Ht, Hc.
  - rewrite (bind_pure _ _ w (PList (fresh (dom (heap w))))
               {| last_timestamps := last_timestamps w;
                  heap := <[fresh (dom (heap w)) := []]> (heap w) |})
      by done.
    erewrite bind_pure by done.
    erewrite bind_pure by (unfold item; by rewrite Hc).
    erewrite bind_pure by done.
    erewrite bind_pure by done.
    cbn [heap last_timestamps].
    by rewrite str_of_new_list, insert_insert_eq, lookup_total_insert_eq.
  - erewrite bind_pure by done.
    erewrite bind_pure by done.
    erewrite bind_pure by (unfold item; by rewrite Hc).
    erewrite bind_pure by done.
    by erewrite bind_pure by done.
Qed.

(** *** The metrics step, by the outcome of its request *)

Lemma record_data_some_returns data endpoint_name f tags lt :
  (record_data (Some data) endpoint_name f tags lt).1.1 = Returned ().
Proof.
  unfold record_data. destruct (negb _); [done |].
  by destruct (record_responses _ f tags lt (target_responses data)).
Qed.

Lemma get_status_code_data_some instance tags w url data :
  _build_url repr_list "rate/status_code" instance w = (Returned url, w, []) →
  (_get_stats requests_get url instance w).1.1 = Returned (Some data) →
  get_status_code_data repr_list requests_get instance tags w
  = (Returned (),
     {| last_timestamps :=
          (record_data (Some data) "status_code" status_code_stat_name
             (Some (heap w !!! tags)) (last_timestamps w)).1.2;
        heap := heap w |},
     LogDebug ("Fetching Cloudant stats at url: " +:+ url)
     :: (record_data (Some data) "status_code" status_code_stat_name
           (Some (heap w !!! tags)) (last_timestamps w)).2).
Proof.
  intros Hb Hg.
  destruct (build_url_cluster repr_list _ _ _ _ _ _ Hb) as [c Hc].
  unfold get_status_code_data.
  rewrite (bind_pure _ _ w url w) by done.
  erewrite bind_pure by (unfold item; by rewrite Hc).
  erewrite bind_pure by done.
  unfold try_except_else.
  destruct (get_stats_frame requests_get url instance w) as [r Hr].
  rewrite Hr in Hg |- *. simpl in Hg. subst r.
  erewrite bind_pure by done.
  erewrite bind_pure by done.
  unfold on_ledger.
  pose proof (record_data_some_returns data "status_code"
                status_code_stat_name (Some (heap w !!! tags))
                (last_timestamps w)) as Hret.
  destruct (record_data (Some data) _ _ _ _) as [[r lt'] evs].
  simpl in *. by subst r.
Qed.

Lemma get_status_code_data_raised instance tags w url e :
  _build_url repr_list "rate/status_code" instance w = (Returned url, w, []) →
  (_get_stats requests_get url instance w).1.1 = Raised e →
  (∀ message, e ≠ RequestsHTTPError message) →
  get_status_code_data repr_list requests_get instance tags w
  = (Raised e, w, [LogDebug ("Fetching Cloudant stats at url: " +:+ url)]).
Proof.
  intros Hb Hg Hne.
  destruct (build_url_cluster repr_list _ _ _ _ _ _ Hb) as [c Hc].
  unfold get_status_code_data.
  rewrite (bind_pure _ _ w url w) by done.
  erewrite bind_pure by (unfold item; by rewrite Hc).
  erewrite bind_pure by done.
  unfold try_except_else.
  destruct (get_stats_frame requests_get url instance w) as [r Hr].
  rewrite Hr in Hg |- *. simpl in Hg. subst r.
  destruct e; try done. by destruct (Hne message).
Qed.

End TickProperties.

(** A failure of the metrics request that is not an HTTP error, a timeout
    for one, is not caught: [get_status_code_data] ends with that
    exception, after the debug line of the request and without a warning,
    a gauge or a change to the ledger. *)
Theorem get_status_code_data_propagates repr_list requests_get
    (instance : gmap string pyval) tags w url e :
  _build_url repr_list "rate/status_code" instance w = (Returned url, w, []) →
  (_get_stats requests_get url instance w).1.1 = Raised e →
  (∀ message, e ≠ RequestsHTTPError message) →
  get_status_code_data repr_list requests_get instance tags w
  = (Raised e, w, [LogDebug ("Fetching Cloudant stats at url: " +:+ url)]).
Proof. apply get_status_code_data_raised. Qed.

Lemma get_status_code_data_propagates_witness :
  let url :=
    "https://u.cloudant.com/_api/v2/monitoring/rate/status_code?cluster=c1" in
  let requests_get := always (Raised (RequestsTimeout "read timed out")) in
  let w := __init__ {[ 1%positive := ["cluster:c1"] ]} in
  _build_url no_repr "rate/status_code" instance_c1 w = (Returned url, w, [])
  ∧ (_get_stats requests_get url instance_c1 w).1.1
    = Raised (RequestsTimeout "read timed out")
  ∧ (∀ message, RequestsTimeout "read timed out" ≠ RequestsHTTPError message)
  ∧ get_status_code_data no_repr requests_get instance_c1 1%positive w
    = (Raised (RequestsTimeout "read timed out"), w,
       [LogDebug ("Fetching Cloudant stats at url: " +:+ url)]).
Proof.
  split; [reflexivity |]. split; [reflexivity |]. split; [discriminate |].
  apply (get_status_code_data_propagates no_repr
           (always (Raised (RequestsTimeout "read timed out")))
           instance_c1 1%positive
           (__init__ {[ 1%positive := ["cluster:c1"] ]})
           "https://u.cloudant.com/_api/v2/monitoring/rate/status_code?cluster=c1"
           (RequestsTimeout "read timed out"));
    [reflexivity | reflexivity | discriminate].
Defined.

(** When the metrics request returns a response, [get_status_code_data]
    logs the request and hands the response to [record_data] with the
    endpoint name [status_code], the transform that strips the first word
    of a target and the content of the tag list: it returns normally, its
    events after the debug line are those of that call, and the ledger
    afterwards is the one that call leaves. *)
Theorem get_status_code_data_records repr_list requests_get
    (instance : gmap string pyval) tags w url data :
  _build_url repr_list "rate/status_code" instance w = (Returned url, w, []) →
  (_get_stats requests_get url instance w).1.1 = Returned (Some data) →
  let recorded :=
    record_data (Some data) "status_code" status_code_stat_name
      (Some (heap w !!! tags)) (last_timestamps w) in
  get_status_code_data repr_list requests_get instance tags w
  = (Returned (),
     {| last_timestamps := recorded.1.2; heap := heap w |},
     LogDebug ("Fetching Cloudant stats at url: " +:+ url) :: recorded.2).
Proof. apply get_status_code_data_some. Qed.

Lemma get_status_code_data_records_witness :
  let url :=
    "https://u.cloudant.com/_api/v2/monitoring/rate/status_code?cluster=c1" in
  let data := single_target 100 [(Some 5, 90)] in
  let requests_get := always (Returned (Some data)) in
  let w := __init__ {[ 1%positive := ["cluster:c1"] ]} in
  _build_url no_repr "rate/status_code" instance_c1 w = (Returned url, w, [])
  ∧ (_get_stats requests_get url instance_c1 w).1.1 = Returned (Some data)
  ∧ get_status_code_data no_repr requests_get instance_c1 1%positive w
    = (Returned (),
       {| last_timestamps := {[ "cloudant.status_code./a" := 90 ]};
          heap := heap w |},
       [LogDebug ("Fetching Cloudant stats at url: " +:+ url);
        LogInfo "Recording data: cloudant.status_code./a, 5";
        Gauge "cloudant.status_code./a" 5 ["cluster:c1"] 90]).
Proof.
  split; [reflexivity |]. split; [reflexivity |].
  rewrite (get_status_code_data_records no_repr
             (always (Returned (Some (single_target 100 [(Some 5, 90)]))))
             instance_c1 1%positive
             (__init__ {[ 1%positive := ["cluster:c1"] ]})
             "https://u.cloudant.com/_api/v2/monitoring/rate/status_code?cluster=c1"
             (single_target 100 [(Some 5, 90)]) eq_refl eq_refl).
  reflexivity.
Defined.

(** *** A whole tick *)

Section TickTheorems.

Variable repr_list : list string → string.
Variable requests_get :
  string → pyval * pyval → pyval → outcome (option StatsResponse).

Implicit Types (instance : gmap string pyval) (w : World).

Lemma check_not_runnable_raises instance w :
  runnable instance = false →
  ∃ e w', check repr_list requests_get instance w = (Raised e, w', [])
          ∧ last_timestamps w' = last_timestamps w
          ∧ (heap w' = heap w
             ∨ heap w' = heap (tick_start repr_list instance w)).
Proof.
  intros Hr. unfold runnable in Hr. unfold check.
  destruct (_validate_instance instance) as [[]|e] eqn:Hv.
  2: { exists e, w.
       rewrite (bind_raised _ _ w e w []) by done. auto. }
  destruct (validate_instance_keys instance Hv) as (c & u & p & Hc & Hu & Hp).
  rewrite (bind_pure _ _ w () w) by done.
  assert (∀ tags w1,
            last_timestamps w1 = last_timestamps w →
            is_Some (instance !! "endpoint") →
            ∃ e w',
              (let* cluster := item instance "cluster" in
               let* cluster := format repr_list cluster in
               list_append tags ("cluster:" +:+ cluster) ;;;
               check_connection repr_list requests_get instance tags ;;;
               get_status_code_data repr_list requests_get instance tags) w1
              = (Raised e, w', [])
              ∧ last_timestamps w' = last_timestamps w
              ∧ heap w'
                = <[tags := heap w1 !!! tags
                            ++ ["cluster:" +:+ str_of repr_list (heap w1) c]]>
                    (heap w1)) as Hrest.
  { intros tags w1 Hw1 [x Hx].
    erewrite bind_pure by (unfold item; by rewrite Hc).
    erewrite bind_pure by done.
    erewrite bind_pure by done.
    eexists _, _. split; [| split].
    - apply bind_raised. apply check_connection_no_url.
      unfold _build_url. by rewrite Hx.
    - exact Hw1.
    - done. }
  destruct (instance !! "tags") as [[s|n|l]|] eqn:Ht.
  - erewrite bind_pure by done. eexists _, w.
    split; [by apply bind_raised | auto].
  - erewrite bind_pure by done. eexists _, w.
    split; [by apply bind_raised | auto].
  - erewrite bind_pure by done. erewrite bind_pure by done.
    destruct (Hrest l w eq_refl) as (e & w' & Heq & Hlt & Hheap).
    { destruct (instance !! "endpoint"); [by eexists | done]. }
    exists e, w'. split; [done |]. split; [done |]. right.
    rewrite Hheap. unfold tick_start, tick_list, tick_tags.
    by rewrite Ht, Hc.
  - erewrite bind_pure by done. erewrite bind_pure by done.
    match goal with
    | |- context [bind _ _ ?w0] =>
        destruct (Hrest (fresh (dom (heap w))) w0 eq_refl)
          as (e & w' & Heq & Hlt & Hheap)
    end.
    { destruct (instance !! "endpoint"); [by eexists | done]. }
    exists e, w'. split; [done |]. split; [done |]. right.
    rewrite Hheap. unfold tick_start, tick_list, tick_tags.
    rewrite Ht, Hc. cbn [heap].
    by rewrite str_of_new_list, insert_insert_eq, lookup_total_insert_eq.
Qed.

(** A tick writes the store at the location of its tag list only. *)
Lemma check_heap_frame instance w l :
  l ≠ tick_list instance w →
  heap (check repr_list requests_get instance w).1.2 !! l = heap w !! l.
Proof.
  intros Hl. destruct (runnable instance) eqn:Hr.
  - rewrite check_eq by done.
    set (w1 := tick_start repr_list instance w).
    assert (heap w1 !! l = heap w !! l) as <-.
    { unfold w1, tick_start. cbn [heap]. by apply lookup_insert_ne. }
    pose proof (check_connection_frame repr_list requests_get instance
                  (tick_list instance w) w1) as Hframe.
    unfold bind.
    destruct (check_connection repr_list requests_get instance _ w1)
      as [[[[]|e] w2] evs]; cbn [fst snd] in *; subst w2; [| done].
    pose proof (get_status_code_data_heap repr_list requests_get instance
                  (tick_list instance w) w1) as Hheap.
    destruct (get_status_code_data repr_list requests_get instance _ w1)
      as [[r w3] evs']. cbn [fst snd] in *. by rewrite Hheap.
  - destruct (check_not_runnable_raises instance w Hr)
      as (e & w' & -> & _ & [Hheap | Hheap]); cbn [fst snd];
      rewrite Hheap; [done |].
    unfold tick_start. cbn [heap]. by apply lookup_insert_ne.
Qed.

Lemma check_liveness_raised instance w e :
  runnable instance = true →
  (_get_stats requests_get
     (url_of repr_list "uptime" instance (tick_start repr_list instance w))
     instance (tick_start repr_list instance w)).1.1 = Raised e →
  check repr_list requests_get instance w
  = (Raised e, tick_start repr_list instance w,
     [LogDebug ("Fetching Cloudant stats at url: "
                +:+ url_of repr_list "uptime" instance
                      (tick_start repr_list instance w));
      ServiceCheck SERVICE_CHECK_NAME CRITICAL
        (tick_tags repr_list instance w)
        (critical_message
           (url_of repr_list "uptime" instance
              (tick_start repr_list instance w)) e)]).
Proof.
  intros Hr Hg. rewrite check_eq by done.
  destruct (runnable_keys instance Hr) as (Hv & He & _).
  apply bind_raised.
  rewrite (check_connection_critical repr_list requests_get instance _ _
             _ e (build_url_valid repr_list "uptime" instance _ Hv He) Hg).
  by rewrite tick_start_tags.
Qed.

Lemma check_both_returned instance w a data :
  runnable instance = true →
  (_get_stats requests_get
     (url_of repr_list "uptime" instance (tick_start repr_list instance w))
     instance (tick_start repr_list instance w)).1.1 = Returned a →
  (_get_stats requests_get
     (url_of repr_list "rate/status_code" instance
        (tick_start repr_list instance w))
     instance (tick_start repr_list instance w)).1.1 = Returned (Some data) →
  check repr_list requests_get instance w
  = (Returned (),
     {| last_timestamps :=
          (record_data (Some data) "status_code" status_code_stat_name
             (Some (tick_tags repr_list instance w))
             (last_timestamps w)).1.2;
        heap := heap (tick_start repr_list instance w) |},
     [LogDebug ("Fetching Cloudant stats at url: "
                +:+ url_of repr_list "uptime" instance
                      (tick_start repr_list instance w));
      ServiceCheck SERVICE_CHECK_NAME OK (tick_tags repr_list instance w)
        ("Connection to "
         +:+ url_of repr_list "uptime" instance
               (tick_start repr_list instance w)
         +:+ " was successful");
      LogDebug ("Fetching Cloudant stats at url: "
                +:+ url_of repr_list "rate/status_code" instance
                      (tick_start repr_list instance w))]
     ++ (record_data (Some data) "status_code" status_code_stat_name
           (Some (tick_tags repr_list instance w)) (last_timestamps w)).2).
Proof.
  intros Hr Hg1 Hg2. rewrite check_eq by done.
  destruct (runnable_keys instance Hr) as (Hv & He & _).
  erewrite bind_returned.
  2: { apply (check_connection_ok repr_list requests_get instance _ _ _ a
                (build_url_valid repr_list "uptime" instance _ Hv He) Hg1). }
  rewrite (get_status_code_data_some repr_list requests_get instance _ _ _
             data (build_url_valid repr_list "rate/status_code" instance _
                     Hv He) Hg2).
  by rewrite tick_start_tags.
Qed.

(** *** The tags of the signals *)

Lemma or_empty_some (l : list string) : Py.or_empty (Some l) = l.
Proof. by destruct l. Qed.

Lemma record_datapoints_signal_tags name tags (lt : gmap string Z) dps :
  Forall (λ ev, ∀ tg, signal_tags ev = Some tg → tg = Py.or_empty tags)
    (record_datapoints name tags lt dps).2.
Proof.
  by_datapoints dps lt; cbn [snd]; [constructor | | done | done].
  apply Forall_cons. split; [done |].
  apply Forall_cons. split; [| done].
  intros tg. simpl. by intros [= <-].
Qed.

Lemma record_data_signal_tags data endpoint_name f tags (lt : gmap string Z) :
  Forall (λ ev, ∀ tg, signal_tags ev = Some tg → tg = Py.or_empty tags)
    (record_data data endpoint_name f tags lt).2.
Proof.
  unfold record_data. destruct data as [data|]; [| constructor].
  destruct (negb _); [by repeat constructor |].
  assert (∀ rs (lt0 : gmap string Z),
            Forall (λ ev, ∀ tg, signal_tags ev = Some tg
                                → tg = Py.or_empty tags)
              (record_responses (prefix_of endpoint_name) f tags lt0 rs).2)
    as Hrs.
  { induction rs as [|r rs IH]; intros lt0; [constructor |].
    rewrite record_responses_cons. cbn [snd].
    apply Forall_app. split; [apply record_datapoints_signal_tags | apply IH]. }
  specialize (Hrs (target_responses data) lt).
  by destruct (record_responses _ f tags lt (target_responses data)).
Qed.

Lemma check_connection_signal_tags instance l w :
  Forall (λ ev, ∀ tg, signal_tags ev = Some tg → tg = heap w !!! l)
    (check_connection repr_list requests_get instance l w).2.
Proof.
  destruct (build_url_frame repr_list "uptime" instance w) as [[url|e] Hb].
  - destruct (_get_stats requests_get url instance w).1.1 as [a|e] eqn:Hg.
    + rewrite (check_connection_ok repr_list requests_get instance l w url a)
        by done.
      repeat constructor; simpl; by intros tg [= <-].
    + rewrite (check_connection_critical repr_list requests_get instance l w
                 url e) by done.
      repeat constructor; simpl; by intros tg [= <-].
  - rewrite (check_connection_no_url repr_list requests_get instance l w e)
      by done.
    constructor.
Qed.

Lemma get_status_code_data_signal_tags instance l w :
  Forall (λ ev, ∀ tg, signal_tags ev = Some tg → tg = heap w !!! l)
    (get_status_code_data repr_list requests_get instance l w).2.
Proof.
  destruct (build_url_frame repr_list "rate/status_code" instance w)
    as [[url|e] Hb].
  2: { unfold get_status_code_data.
       rewrite (bind_raised _ _ w e w []) by done. constructor. }
  destruct (get_stats_frame requests_get url instance w) as [r Hr].
  destruct r as [[data|]|e].
  - rewrite (get_status_code_data_some repr_list requests_get instance l w
               url data) by (done || by rewrite Hr).
    cbn [snd]. apply Forall_cons. split; [done |].
    pose proof (record_data_signal_tags (Some data) "status_code"
                  status_code_stat_name (Some (heap w !!! l))
                  (last_timestamps w)) as H.
    by rewrite or_empty_some in H.
  - rewrite (get_status_code_data_none repr_list requests_get instance l w
               url) by (done || by rewrite Hr).
    by repeat constructor.
  - destruct (build_url_cluster repr_list _ _ _ _ _ _ Hb) as [c Hc].
    unfold get_status_code_data.
    rewrite (bind_pure _ _ w url w) by done.
    erewrite bind_pure by (unfold item; by rewrite Hc).
    erewrite bind_pure by done.
    unfold try_except_else. rewrite Hr.
    destruct e; by repeat constructor.
Qed.

Lemma check_signal_tags instance w :
  Forall (λ ev, ∀ tg, signal_tags ev = Some tg
                      → tg = tick_tags repr_list instance w)
    (check repr_list requests_get instance w).2.
Proof.
  destruct (runnable instance) eqn:Hr.
  2: { destruct (check_not_runnable_raises instance w Hr)
         as (e & w' & -> & _ & _). constructor. }
  rewrite check_eq by done.
  rewrite <- tick_start_tags.
  set (w1 := tick_start repr_list instance w).
  set (l := tick_list instance w).
  pose proof (check_connection_signal_tags instance l w1) as Hcc.
  pose proof (check_connection_frame repr_list requests_get instance l w1)
    as Hframe.
  unfold bind.
  destruct (check_connection repr_list requests_get instance l w1)
    as [[[[]|e] w2] evs]; cbn [fst snd] in *; [| done].
  subst w2.
  pose proof (get_status_code_data_signal_tags instance l w1) as Hsc.
  destruct (get_status_code_data repr_list requests_get instance l w1)
    as [[r w3] evs']. cbn [fst snd] in *.
  apply Forall_app. by split.
Qed.

(** *** Two ticks on one check object *)

Lemma record_datapoints_ledger_tags name tags tags' (lt : gmap string Z) dps :
  (record_datapoints name tags lt dps).1
  = (record_datapoints name tags' lt dps).1.
Proof.
  revert lt. induction dps as [|[[v|] epoch] dps IH]; intros lt; [done | |].
  - destruct (_should_record_data lt name epoch) eqn:Hrec.
    + rewrite !record_datapoints_new by done. cbn [fst]. apply IH.
    + rewrite !record_datapoints_old by done. apply IH.
  - rewrite !record_datapoints_null. apply IH.
Qed.

Lemma record_data_ledger_tags data endpoint_name f tags tags'
    (lt : gmap string Z) :
  (record_data data endpoint_name f tags lt).1.2
  = (record_data data endpoint_name f tags' lt).1.2.
Proof.
  unfold record_data. destruct data as [data|]; [| done].
  destruct (negb _); [done |].
  assert (∀ rs (lt0 : gmap string Z),
            (record_responses (prefix_of endpoint_name) f tags lt0 rs).1
            = (record_responses (prefix_of endpoint_name) f tags' lt0 rs).1)
    as Hrs.
  { induction rs as [|r rs IH]; intros lt0; [done |].
    rewrite !record_responses_cons. cbn [fst].
    rewrite (record_datapoints_ledger_tags _ tags tags'). apply IH. }
  specialize (Hrs (target_responses data) lt).
  destruct (record_responses _ f tags lt (target_responses data)).
  by destruct (record_responses _ f tags' lt (target_responses data)).
Qed.

Lemma record_data_replay_tags data endpoint_name f tags tags'
    (lt : gmap string Z) :
  nonzero_epochs data = true →
  gauges (record_data (Some data) endpoint_name f tags'
            (record_data (Some data) endpoint_name f tags lt).1.2).2 = [].
Proof.
  intros Hnz.
  rewrite (record_data_ledger_tags (Some data) endpoint_name f tags tags').
  by destruct (record_data_replay data endpoint_name f tags' lt Hnz)
    as [-> | ->].
Qed.

Lemma get_stats_answers instance w url data :
  runnable instance = true → answers requests_get data →
  (_get_stats requests_get url instance w).1.1 = Returned data.
Proof.
  intros (Hv & _ & _)%runnable_keys Ha.
  destruct (validate_instance_keys instance Hv) as (c & u & p & Hc & Hu & Hp).
  rewrite (get_stats_ok requests_get url instance w u p Hu Hp).
  apply Ha.
Qed.

End TickTheorems.

(** A tick on an instance that lacks a required key, has a key [endpoint]
    or holds something other than a list under [tags] ends with an
    exception before any request is made: nothing is logged or submitted
    and the ledger is left alone. When it is a required key that is
    missing, the exception is the one of [_validate_instance] and the store
    is left alone as well. *)
Theorem check_stops_before_requests repr_list requests_get
    (instance : gmap string pyval) w :
  runnable instance = false →
  (∃ e, (check repr_list requests_get instance w).1.1 = Raised e)
  ∧ (check repr_list requests_get instance w).2 = []
  ∧ last_timestamps (check repr_list requests_get instance w).1.2
    = last_timestamps w
  ∧ ∀ e, _validate_instance instance = Raised e →
         check repr_list requests_get instance w = (Raised e, w, []).
Proof.
  intros Hr.
  destruct (check_not_runnable_raises repr_list requests_get instance w Hr)
    as (e & w' & Heq & Hlt & _).
  rewrite Heq. repeat split; [by exists e | done |].
  intros e' Hv. rewrite <- Heq. unfold check.
  by rewrite (bind_raised _ _ w e' w []) by (unfold lift; by rewrite Hv).
Qed.

Lemma check_stops_before_requests_witness :
  let instance : gmap string pyval :=
    <["username" := PStr "u"]> (<["password" := PStr "p"]> ∅) in
  let result :=
    check no_repr (always (Returned None)) instance (__init__ ∅) in
  runnable instance = false
  ∧ (∃ e, result.1.1 = Raised e)
  ∧ result.2 = []
  ∧ last_timestamps result.1.2 = last_timestamps (__init__ ∅)
  ∧ ∀ e, _validate_instance instance = Raised e →
         check no_repr (always (Returned None)) instance (__init__ ∅)
         = (Raised e, __init__ ∅, []).
Proof.
  split; [reflexivity |].
  apply (check_stops_before_requests no_repr (always (Returned None))
           (<["username" := PStr "u"]> (<["password" := PStr "p"]> ∅))
           (__init__ ∅)).
  reflexivity.
Defined.

(** When the liveness request of a tick on a runnable instance fails, the
    tick ends with that failure right after the CRITICAL service check:
    the metrics endpoint is not requested, no gauge is submitted and the
    ledger is as the tick found it. *)
Theorem check_liveness_failure repr_list requests_get
    (instance : gmap string pyval) w e :
  runnable instance = true →
  (_get_stats requests_get
     (url_of repr_list "uptime" instance (tick_start repr_list instance w))
     instance (tick_start repr_list instance w)).1.1 = Raised e →
  check repr_list requests_get instance w
  = (Raised e, tick_start repr_list instance w,
     [LogDebug ("Fetching Cloudant stats at url: "
                +:+ url_of repr_list "uptime" instance
                      (tick_start repr_list instance w));
      ServiceCheck SERVICE_CHECK_NAME CRITICAL
        (tick_tags repr_list instance w)
        (critical_message
           (url_of repr_list "uptime" instance
              (tick_start repr_list instance w)) e)]).
Proof. apply check_liveness_raised. Qed.

Lemma check_liveness_failure_witness :
  let instance := <["tags" := PList 1%positive]> instance_c1 in
  let requests_get := always (Raised (RequestsTimeout "read timed out")) in
  let w := __init__ {[ 1%positive := ["env:prod"] ]} in
  runnable instance = true
  ∧ check no_repr requests_get instance w
    = (Raised (RequestsTimeout "read timed out"),
       __init__ {[ 1%positive := ["env:prod"; "cluster:c1"] ]},
       [LogDebug "Fetching Cloudant stats at url: https://u.cloudant.com/_api/v2/monitoring/uptime?cluster=c1";
        ServiceCheck "cloudant.can_connect" CRITICAL
          ["env:prod"; "cluster:c1"]
          "Request timeout: https://u.cloudant.com/_api/v2/monitoring/uptime?cluster=c1, read timed out"]).
Proof.
  split; [reflexivity |].
  rewrite (check_liveness_failure no_repr
             (always (Raised (RequestsTimeout "read timed out")))
             (<["tags" := PList 1%positive]> instance_c1)
             (__init__ {[ 1%positive := ["env:prod"] ]})
             (RequestsTimeout "read timed out"));
    [| vm_compute; reflexivity | vm_compute; reflexivity].
  vm_compute. reflexivity.
Defined.

(** When both requests of a tick on a runnable instance return and the
    metrics request returns a response, the tick returns normally; it
    submits the OK service check and then what [record_data] submits for
    that response with the tags of the tick, and the ledger afterwards is
    the one [record_data] leaves. *)
Theorem check_records_response repr_list requests_get
    (instance : gmap string pyval) w a data :
  runnable instance = true →
  (_get_stats requests_get
     (url_of repr_list "uptime" instance (tick_start repr_list instance w))
     instance (tick_start repr_list instance w)).1.1 = Returned a →
  (_get_stats requests_get
     (url_of repr_list "rate/status_code" instance
        (tick_start repr_list instance w))
     instance (tick_start repr_list instance w)).1.1 = Returned (Some data) →
  check repr_list requests_get instance w
  = (Returned (),
     {| last_timestamps :=
          (record_data (Some data) "status_code" status_code_stat_name
             (Some (tick_tags repr_list instance w))
             (last_timestamps w)).1.2;
        heap := heap (tick_start repr_list instance w) |},
     [LogDebug ("Fetching Cloudant stats at url: "
                +:+ url_of repr_list "uptime" instance
                      (tick_start repr_list instance w));
      ServiceCheck SERVICE_CHECK_NAME OK (tick_tags repr_list instance w)
        ("Connection to "
         +:+ url_of repr_list "uptime" instance
               (tick_start repr_list instance w)
         +:+ " was successful");
      LogDebug ("Fetching Cloudant stats at url: "
                +:+ url_of repr_list "rate/status_code" instance
                      (tick_start repr_list instance w))]
     ++ (record_data (Some data) "status_code" status_code_stat_name
           (Some (tick_tags repr_list instance w)) (last_timestamps w)).2).
Proof. apply check_both_returned. Qed.

Lemma check_records_response_witness :
  let data := single_target 100 [(Some 5, 90)] in
  let requests_get := always (Returned (Some data)) in
  runnable instance_c1 = true
  ∧ gauges (check no_repr requests_get instance_c1 (__init__ ∅)).2
    = [Gauge "cloudant.status_code./a" 5 ["cluster:c1"] 90]
  ∧ last_timestamps (check no_repr requests_get instance_c1 (__init__ ∅)).1.2
    = {[ "cloudant.status_code./a" := 90 ]}.
Proof.
  split; [reflexivity |].
  rewrite (check_records_response no_repr
             (always (Returned (Some (single_target 100 [(Some 5, 90)]))))
             instance_c1 (__init__ ∅)
             (Some (single_target 100 [(Some 5, 90)]))
             (single_target 100 [(Some 5, 90)]));
    [| vm_compute; reflexivity ..].
  vm_compute. split; reflexivity.
Defined.

(** Every gauge and every service check that a tick submits carries the
    same tags: the content that the instance's tag list had when the tick
    began (nothing, for an instance without [tags]), followed by the tag
    [cluster:] with the cluster of the instance. *)
Theorem check_signals_tagged repr_list requests_get
    (instance : gmap string pyval) w :
  Forall (λ ev, ∀ tg, signal_tags ev = Some tg
                      → tg = tick_tags repr_list instance w)
    (check repr_list requests_get instance w).2.
Proof. apply check_signal_tags. Qed.

(** The ledger is keyed by metric name alone, so two instances served by
    one check object share it: once a tick has gone through a response
    whose datapoints carry epochs other than 0, a tick on any other
    runnable instance that receives the same response submits no gauge. *)
Theorem check_shares_ledger repr_list requests_get1 requests_get2
    (instance1 instance2 : gmap string pyval) w data :
  runnable instance1 = true → runnable instance2 = true →
  answers requests_get1 (Some data) → answers requests_get2 (Some data) →
  nonzero_epochs data = true →
  gauges (check repr_list requests_get2 instance2
            (check repr_list requests_get1 instance1 w).1.2).2 = [].
Proof.
  intros Hr1 Hr2 Ha1 Ha2 Hnz.
  rewrite (check_both_returned repr_list requests_get1 instance1 w
             (Some data) data Hr1) by (by apply get_stats_answers).
  cbn [fst snd].
  match goal with
  | |- context [check _ _ _ ?w'] => set (w1 := w')
  end.
  rewrite (check_both_returned repr_list requests_get2 instance2 w1
             (Some data) data Hr2) by (by apply get_stats_answers).
  cbn [fst snd]. rewrite gauges_app.
  assert (∀ a b c s, gauges [LogDebug a; ServiceCheck SERVICE_CHECK_NAME OK b c;
                             LogDebug s] = []) as -> by done.
  by apply record_data_replay_tags.
Qed.

Lemma check_shares_ledger_witness :
  let data := single_target 100 [(Some 5, 90)] in
  let instance2 := <["cluster" := PStr "c2"]> instance_c1 in
  let requests_get := always (Returned (Some data)) in
  runnable instance_c1 = true ∧ runnable instance2 = true
  ∧ answers requests_get (Some data)
  ∧ nonzero_epochs data = true
  ∧ gauges (check no_repr requests_get instance_c1 (__init__ ∅)).2
    = [Gauge "cloudant.status_code./a" 5 ["cluster:c1"] 90]
  ∧ gauges (check no_repr requests_get instance2
              (check no_repr requests_get instance_c1 (__init__ ∅)).1.2).2
    = [].
Proof.
  split; [reflexivity |]. split; [reflexivity |].
  split; [intros url auth timeout; reflexivity |].
  split; [reflexivity |]. split; [vm_compute; reflexivity |].
  apply (check_shares_ledger no_repr
           (always (Returned (Some (single_target 100 [(Some 5, 90)]))))
           (always (Returned (Some (single_target 100 [(Some 5, 90)]))))
           instance_c1 (<["cluster" := PStr "c2"]> instance_c1) (__init__ ∅)
           (single_target 100 [(Some 5, 90)]));
    [reflexivity | reflexivity | intros url auth timeout; reflexivity
     | intros url auth timeout; reflexivity | reflexivity].
Defined.

(** A tick changes no list object of the store other than the tag list it
    submits its tags from. For an instance without [tags] that list is a
    new one, so that every list object that existed before the tick is
    left as it was. *)
Theorem check_store_frame repr_list requests_get
    (instance : gmap string pyval) w :
  (∀ l, l ≠ tick_list instance w →
        heap (check repr_list requests_get instance w).1.2 !! l
        = heap w !! l)
  ∧ (instance !! "tags" = None →
     ∀ l, is_Some (heap w !! l) →
          heap (check repr_list requests_get instance w).1.2 !! l
          = heap w !! l).
Proof.
  split; [intros l; apply check_heap_frame |].
  intros Ht l Hl. apply check_heap_frame.
  unfold tick_list. rewrite Ht. intros ->.
  apply elem_of_dom in Hl. by apply is_fresh in Hl.
Qed.
